(** * KarmaBot: karma changes, moderation commands and log shipping

    A shallow embedding of [app/handlers/change_karma.py],
    [app/handlers/moderator.py] and [app/utils/send_text_file.py].

    Handlers are coroutines that call collaborators (the platform client,
    the persistence layer, the karma engine).  A handler is embedded as a
    function from a world to a world and an outcome; every collaborator call
    is appended to the trace of the world, and what the collaborator answers
    is read from an environment record. *)

From Stdlib Require Import ZArith NArith List String Ascii Lia Bool.
From stdpp Require Import gmap list.
Import ListNotations.

Local Open Scope Z_scope.

(** ** Text *)

(** A Python [str] is the list of its code points. *)
Module Text.

Definition str := list N.

(** Decoding of the UTF-8 bytes of a literal of this file. *)
Fixpoint utf8_decode (bs : list N) : str :=
  match bs with
  | [] => []
  | b0 :: r0 =>
      if (b0 <? 128)%N then b0 :: utf8_decode r0
      else
        match r0 with
        | [] => [b0]
        | b1 :: r1 =>
            if (b0 <? 224)%N
            then ((b0 mod 32) * 64 + b1 mod 64)%N :: utf8_decode r1
            else
              match r1 with
              | [] => [b0; b1]
              | b2 :: r2 =>
                  if (b0 <? 240)%N
                  then ((b0 mod 16) * 4096 + (b1 mod 64) * 64 + b2 mod 64)%N
                         :: utf8_decode r2
                  else
                    match r2 with
                    | [] => [b0; b1; b2]
                    | b3 :: r3 =>
                        ((b0 mod 8) * 262144 + (b1 mod 64) * 4096
                         + (b2 mod 64) * 64 + b3 mod 64)%N :: utf8_decode r3
                    end
              end
        end
  end.

Definition lit (s : string) : str :=
  utf8_decode (map N_of_ascii (list_ascii_of_string s)).

(** [str.isspace] on one code point. *)
Definition isspace (c : N) : bool :=
  ((9 <=? c) && (c <=? 13) || (28 <=? c) && (c <=? 32)
   || (c =? 133) || (c =? 160) || (c =? 5760)
   || (8192 <=? c) && (c <=? 8202)
   || (c =? 8232) || (c =? 8233) || (c =? 8239) || (c =? 8287)
   || (c =? 12288))%N.

Fixpoint lstrip (s : str) : str :=
  match s with
  | [] => []
  | c :: r => if isspace c then lstrip r else s
  end.

(** The longest prefix without white space, and what follows it. *)
Fixpoint span_word (s : str) : str * str :=
  match s with
  | [] => ([], [])
  | c :: r =>
      if isspace c then ([], s)
      else let '(w, t) := span_word r in (c :: w, t)
  end.

(** [s.split(maxsplit=n)]: at most [n] words are cut off at runs of white
    space; what is left, without its leading white space, is the last
    element when it is not empty. *)
Fixpoint split (maxsplit : nat) (s : str) : list str :=
  match maxsplit with
  | O => match lstrip s with [] => [] | r => [r] end
  | S n =>
      match lstrip s with
      | [] => []
      | r => let '(w, t) := span_word r in w :: split n t
      end
  end.

(** [sep.join(parts)] *)
Fixpoint join (sep : str) (parts : list str) : str :=
  match parts with
  | [] => []
  | [p] => p
  | p :: ps => p ++ sep ++ join sep ps
  end.

End Text.

Abbreviation str := Text.str.
Abbreviation py := Text.lit.
Arguments Text.lit s%_string.

(** ** Data *)

(** [datetime.timedelta], as its total number of microseconds: the order of
    Python on time spans is the order of these numbers. *)
Definition timedelta := Z.

Definition timedelta_days (days : Z) : timedelta := days * 86400000000.
Definition timedelta_hours (hours : Z) : timedelta := hours * 3600000000.

Definition FOREVER_DURATION : timedelta := timedelta_days 366.
Definition DEFAULT_DURATION : timedelta := timedelta_hours 1.

(** [aiogram.types.User]: the platform's user, as a message carries it.  A
    user that is only mentioned by name has no [id]. *)
Module TgUser.
Record t := mk {
  id : option Z;
  username : option str;
  is_bot : bool;
  url : str
}.
End TgUser.

(** [app.models.user.User]: the row of a user. *)
Module User.
Record t := mk {
  id : Z;
  tg_id : Z;
  fullname : str;
  mention_link : str
}.
End User.

(** [app.models.chat.Chat]: the row of a chat. *)
Module Chat.
Record t := mk {
  chat_id : Z
}.
End Chat.

(** [aiogram.types.Message], as far as the handlers read it. *)
Module Message.
Record t := mk {
  message_id : Z;
  from_user : Z;
  chat : Z;
  text : str
}.
End Message.

Inductive ChatMemberStatus :=
| CREATOR | ADMINISTRATOR | MEMBER | RESTRICTED | LEFT | KICKED.

(** [aiogram.types.ChatMember]; a right the platform did not send is [None]. *)
Module ChatMember.
Record t := mk {
  user : TgUser.t;
  status : ChatMemberStatus;
  can_delete_messages : option bool;
  can_restrict_members : option bool
}.
End ChatMember.

(** The keyword arguments of [ModeratorEvent.save_new_action]. *)
Module ModeratorAction.
Record t := mk {
  moderator : User.t;
  user : User.t;
  chat : Chat.t;
  type_restriction : str;
  duration : option timedelta;
  comment : str
}.
End ModeratorAction.

(** The [karma] dictionary that the [karma_change] filter hands over. *)
Module Karma.
Record t := mk {
  user : TgUser.t;
  karma_change : Z
}.
End Karma.

(** ** Exceptions, return values and events *)

Inductive exn :=
| UserWithoutUserIdError (user_id chat_id : option Z)
| UsernameNotOccupied
| IndexError
| ValueError
| KeyError
| SubZeroKarma
| TimedeltaParseError (text : str)
| BadRequest (description : str)
| FileNotFoundError
| OtherError (name : str).

(** What a handler returns: [None], [False], or the message that
    [message.reply] sent. *)
Inductive retval :=
| RNone
| RFalse
| RMessage (text : str).

Inductive log_arg :=
| LInt (n : Z)
| LDuration (d : timedelta)
| LExn (e : exn).

(** One call of a collaborator. *)
Inductive event :=
| EvGetOrCreateFromTgUser (tg_user : TgUser.t)
| EvGetUserByUsername (username : option str)
| EvChangeOrCreate (target_user : User.t) (chat : Chat.t)
    (user_changed : User.t) (how_change : Z)
| EvGetDbUserByTgUser (target : TgUser.t)
| EvRestrict (chat tg_id : Z) (can_send_messages : bool) (until_date : timedelta)
| EvKick (chat tg_id : Z) (until_date : timedelta)
| EvSaveNewAction (action : ModeratorAction.t)
| EvGetAdministrators (chat : Z)
| EvReply (message_id : Z) (text : str)
| EvLogInfo (template : str) (args : list log_arg)
| EvLogError (template : str) (args : list log_arg).

(** ** Collaborators *)

(** Modelled from the spec: [UserKarma.change_or_create], the karma engine
    of section 4.5, is not under [src/].  Called on the store with the
    target, the chat, the actor and the change, it returns the updated
    record and the power, with the store after the change, or it raises, and
    then no mutation occurs: the store stays as it was. *)
Definition KarmaEngine (KarmaStore UserKarma Power : Type) : Type :=
  KarmaStore -> User.t -> Chat.t -> User.t -> Z ->
  (KarmaStore * UserKarma * Power) + exn.

(** What the code calls and [src/] does not hold: the persistence layer, the
    platform client, the duration parser and the markup helpers, each one a
    parameter.  The answer of a fallible one is a value or the exception
    raised.  [karma_round] is the rounded karma of a record as [hbold] prints
    it, and [format_power power how] is the power times the change in the
    format [+.1f]. *)
Record Env := {
  KarmaStore : Type;
  UserKarma : Type;
  Power : Type;
  get_or_create_from_tg_user : TgUser.t -> User.t + exn;
  get_user_by_username : option str -> User.t + exn;
  change_or_create : KarmaEngine KarmaStore UserKarma Power;
  karma_round : UserKarma -> str;
  format_power : Power -> Z -> str;
  get_db_user_by_tg_user : TgUser.t -> User.t + exn;
  chat_restrict : Z -> Z -> timedelta -> option exn;
  chat_kick : Z -> Z -> timedelta -> option exn;
  save_new_action : ModeratorAction.t -> option exn;
  get_administrators : Z -> list ChatMember.t + exn;
  parse_timedelta_from_text : str -> timedelta + exn;
  format_timedelta : timedelta -> str;
  hbold : str -> str;
  quote_html : str -> str;
  hide_link : str -> str;
  textwrap_wrap : str -> Z -> list str
}.

(** ** Coroutines *)

(** How a block of statements ends: it goes on with a value, it leaves the
    function with [return], or it raises. *)
Inductive outcome (A : Type) :=
| Next (a : A)
| Return (v : retval)
| Raise (e : exn).

Arguments Next {A} a.
Arguments Return {A} v.
Arguments Raise {A} e.

(** One run: the karma store after it, the collaborator calls it made, in
    order, and how it ended. *)
Record Run (S A : Type) := mkRun {
  store : S;
  events : list event;
  out : outcome A
}.

Arguments mkRun {S A} store events out.
Arguments store {S A} r.
Arguments events {S A} r.
Arguments out {S A} r.

Definition M (E : Env) (A : Type) := KarmaStore E -> Run (KarmaStore E) A.

Section Monad.
Context {E : Env}.

Definition ret {A} (a : A) : M E A := fun s => mkRun s [] (Next a).
Definition return_ {A} (v : retval) : M E A := fun s => mkRun s [] (Return v).
Definition raise {A} (e : exn) : M E A := fun s => mkRun s [] (Raise e).
Definition emit (ev : event) : M E unit := fun s => mkRun s [ev] (Next tt).

Definition bind {A B} (m : M E A) (k : A -> M E B) : M E B :=
  fun s =>
    match m s with
    | mkRun s1 evs1 (Next a) =>
        match k a s1 with
        | mkRun s2 evs2 o => mkRun s2 (evs1 ++ evs2) o
        end
    | mkRun s1 evs1 (Return v) => mkRun s1 evs1 (Return v)
    | mkRun s1 evs1 (Raise e) => mkRun s1 evs1 (Raise e)
    end.

(** [try: body except ...: handler else: orelse]; [handler e] is [None] when
    no [except] clause matches [e]. *)
Definition try_except_else {A B} (body : M E A)
    (handler : exn -> option (M E B)) (orelse : A -> M E B) : M E B :=
  fun s =>
    match body s with
    | mkRun s1 evs1 (Next a) =>
        match orelse a s1 with
        | mkRun s2 evs2 o => mkRun s2 (evs1 ++ evs2) o
        end
    | mkRun s1 evs1 (Return v) => mkRun s1 evs1 (Return v)
    | mkRun s1 evs1 (Raise e) =>
        match handler e with
        | Some h =>
            match h s1 with
            | mkRun s2 evs2 o => mkRun s2 (evs1 ++ evs2) o
            end
        | None => mkRun s1 evs1 (Raise e)
        end
    end.

Definition try_except {A} (body : M E A) (handler : exn -> option (M E A))
    : M E A :=
  try_except_else body handler ret.

(** A call of a collaborator that answers [r]. *)
Definition ask {A} (ev : event) (r : A + exn) : M E A :=
  fun s => mkRun s [ev] (match r with inl a => Next a | inr e => Raise e end).

Definition tell (ev : event) (r : option exn) : M E unit :=
  fun s => mkRun s [ev] (match r with None => Next tt | Some e => Raise e end).

(** The body of a function: falling off its end returns [None]. *)
Definition body (m : M E unit) : M E retval :=
  fun s =>
    match m s with
    | mkRun s1 evs1 (Next _) => mkRun s1 evs1 (Return RNone)
    | mkRun s1 evs1 (Return v) => mkRun s1 evs1 (Return v)
    | mkRun s1 evs1 (Raise e) => mkRun s1 evs1 (Raise e)
    end.

End Monad.

Declare Scope py_scope.
Delimit Scope py_scope with py.
Notation "x <- m ;; k" := (bind m (fun x => k))
  (at level 100, m at next level, right associativity) : py_scope.
Notation "m ;; k" := (bind m (fun _ => k))
  (at level 100, right associativity) : py_scope.

Local Open Scope py_scope.

(** ** Calls of the collaborators *)

Section Calls.
Context {E : Env}.

Definition User_get_or_create_from_tg_user (tg_user : TgUser.t) : M E User.t :=
  ask (EvGetOrCreateFromTgUser tg_user) (get_or_create_from_tg_user E tg_user).

Definition UserGetter_get_user_by_username (username : option str) : M E User.t :=
  ask (EvGetUserByUsername username) (get_user_by_username E username).

(** The engine works on the store: the store changes when it returns. *)
Definition UserKarma_change_or_create (target_user : User.t) (chat : Chat.t)
    (user_changed : User.t) (how_change : Z) : M E (UserKarma E * Power E) :=
  fun s =>
    let ev := EvChangeOrCreate target_user chat user_changed how_change in
    match change_or_create E s target_user chat user_changed how_change with
    | inl (s', uk, power) => mkRun s' [ev] (Next (uk, power))
    | inr e => mkRun s [ev] (Raise e)
    end.

Definition find_target_user_get_db_user_by_tg_user (target : TgUser.t)
    : M E User.t :=
  ask (EvGetDbUserByTgUser target) (get_db_user_by_tg_user E target).

Definition chat_restrict_ (chat tg_id : Z) (can_send_messages : bool)
    (until_date : timedelta) : M E unit :=
  tell (EvRestrict chat tg_id can_send_messages until_date)
    (chat_restrict E chat tg_id until_date).

Definition chat_kick_ (chat tg_id : Z) (until_date : timedelta) : M E unit :=
  tell (EvKick chat tg_id until_date) (chat_kick E chat tg_id until_date).

Definition ModeratorEvent_save_new_action (action : ModeratorAction.t)
    : M E unit :=
  tell (EvSaveNewAction action) (save_new_action E action).

Definition chat_get_administrators (chat : Z) : M E (list ChatMember.t) :=
  ask (EvGetAdministrators chat) (get_administrators E chat).

(** [message.reply(text)] sends [text] and returns the message sent. *)
Definition message_reply (message : Message.t) (text : str) : M E retval :=
  emit (EvReply (Message.message_id message) text) ;; ret (RMessage text).

Definition logger_info (template : str) (args : list log_arg) : M E unit :=
  emit (EvLogInfo template args).

Definition logger_error (template : str) (args : list log_arg) : M E unit :=
  emit (EvLogError template args).

End Calls.

(** ** app/handlers/change_karma.py *)

Section ChangeKarma.
Context {E : Env}.

Definition how_change (karma_change : Z) : option str :=
  if karma_change =? 1 then Some (py "увеличили")
  else if karma_change =? -1 then Some (py "уменьшили")
  else None.

Definition can_change_karma (target_user user : User.t) : bool :=
  negb (User.id user =? User.id target_user).

Definition to_fast_change_karma (message : Message.t) : M E retval :=
  v <- message_reply message (py "Вы слишком часто меняете карму") ;;
  return_ v.

Definition karma_change (message : Message.t) (karma : Karma.t)
    (user : User.t) (chat : Chat.t) : M E unit :=
  target_user <-
    try_except_else
      (User_get_or_create_from_tg_user (Karma.user karma))
      (fun e =>
         match e with
         | UserWithoutUserIdError _ _ =>
             Some
               (try_except
                  (UserGetter_get_user_by_username
                     (TgUser.username (Karma.user karma)))
                  (fun e' =>
                     match e' with
                     | UsernameNotOccupied | IndexError =>
                         Some (raise (UserWithoutUserIdError
                                        (Some (User.tg_id user))
                                        (Some (Chat.chat_id chat))))
                     | _ => None
                     end))
         | _ => None
         end)
      (fun target_user =>
         if negb (can_change_karma target_user user)
         then
           logger_info (py "user {user} try to change self karma")
             [LInt (User.tg_id user)] ;;
           return_ RNone
         else ret target_user) ;;
  uk_power <-
    try_except
      (UserKarma_change_or_create target_user chat user
         (Karma.karma_change karma))
      (fun e =>
         match e with
         | SubZeroKarma =>
             Some
               (logger_info
                  (py "user {user} try to change karma but have negative karma")
                  [LInt (User.tg_id user)] ;;
                v <- message_reply message
                       (py "У Вас слишком мало кармы для этого") ;;
                return_ v)
         | _ => None
         end) ;;
  let '(uk, power) := uk_power in
  how <-
    match how_change (Karma.karma_change karma) with
    | Some h => ret h
    | None => raise KeyError
    end ;;
  let return_text :=
    py "Вы " ++ how ++ py " карму "
    ++ hbold E (User.fullname target_user) ++ py " до "
    ++ hbold E (karma_round E uk) ++ py " ("
    ++ format_power E power (Karma.karma_change karma) ++ py ")" in
  message_reply message return_text ;;
  logger_info (py "user {user} change karma of {target_user}")
    [LInt (User.tg_id user); LInt (User.tg_id target_user)].

End ChangeKarma.

(** ** app/handlers/moderator.py *)

Section Moderator.
Context {E : Env}.

(** The truth value of a right that may be missing. *)
Definition truthy (b : option bool) : bool :=
  match b with Some true => true | _ => false end.

Definition need_notify_admin (admin : ChatMember.t) : bool :=
  truthy (ChatMember.can_delete_messages admin)
  || truthy (ChatMember.can_restrict_members admin)
  || match ChatMember.status admin with CREATOR => true | _ => false end.

(** One turn of the loop of [get_mentions_admins]. *)
Definition add_mention (admins_mention : str) (admin : ChatMember.t) : str :=
  if TgUser.is_bot (ChatMember.user admin) then admins_mention
  else if need_notify_admin admin
  then admins_mention ++ hide_link E (TgUser.url (ChatMember.user admin))
  else admins_mention.

Definition get_mentions_admins (chat : Z) : M E str :=
  admins <- chat_get_administrators chat ;;
  ret (fold_left add_mention admins []).

Definition report (message : Message.t) : M E unit :=
  logger_info (py "user {user} report for message {message}")
    [LInt (Message.from_user message); LInt (Message.message_id message)] ;;
  let answer_template :=
    py "Спасибо за сообщение. Мы обязательно разберёмся. " in
  admins_mention <- get_mentions_admins (Message.chat message) ;;
  message_reply message (answer_template ++ admins_mention ++ py " ") ;;
  ret tt.

(** [_, *args = text.split(maxsplit=2)] raises [ValueError] when the text
    has no word. *)
Definition get_moderator_message_args (text : str) : (str * str) + exn :=
  match Text.split 2 text with
  | [] => inr ValueError
  | _ :: args =>
      match args with
      | [] => inl ([], [])
      | duration_text :: rest =>
          match rest with
          | [] => inl (duration_text, [])
          | _ => inl (duration_text, Text.join (py " ") rest)
          end
      end
  end.

Definition get_duration (text : str) : (timedelta * str) + exn :=
  match get_moderator_message_args text with
  | inr e => inr e
  | inl (duration_text, comment) =>
      match duration_text with
      | _ :: _ =>
          match parse_timedelta_from_text E duration_text with
          | inl duration => inl (duration, comment)
          | inr e => inr e
          end
      | [] => inl (DEFAULT_DURATION, comment)
      end
  end.

Definition get_duration_ (text : str) : M E (timedelta * str) :=
  fun s => mkRun s []
    (match get_duration text with inl v => Next v | inr e => Raise e end).

Definition cmd_ro (message : Message.t) (chat : Chat.t) (user : User.t)
    (target : TgUser.t) : M E unit :=
  duration_comment <-
    try_except (get_duration_ (Message.text message))
      (fun e =>
         match e with
         | TimedeltaParseError text =>
             Some (v <- message_reply message
                          (py "Не могу распознать время. " ++ quote_html E text) ;;
                   return_ v)
         | _ => None
         end) ;;
  let '(duration, comment) := duration_comment in
  target_user <- find_target_user_get_db_user_by_tg_user target ;;
  try_except_else
    (chat_restrict_ (Message.chat message) (User.tg_id target_user) false
       duration ;;
     logger_info (py "User {user} restricted by {admin} for {duration}")
       [LInt (User.tg_id target_user); LInt (User.tg_id user);
        LDuration duration])
    (fun e =>
       match e with
       | BadRequest _ =>
           Some (logger_error (py "Failed to restrict chat member: {error!r}")
                   [LExn e] ;;
                 return_ RFalse)
       | _ => None
       end)
    (fun _ =>
       ModeratorEvent_save_new_action
         (ModeratorAction.mk user target_user chat (py "ro") (Some duration)
            comment)) ;;
  message_reply message
    (py "Пользователь " ++ User.mention_link target_user
     ++ py " сможет <b>только читать</b> сообщения на протяжении "
     ++ format_timedelta E duration) ;;
  ret tt.

Definition cmd_ban (message : Message.t) (chat : Chat.t) (user : User.t)
    (target : TgUser.t) : M E unit :=
  duration_comment <-
    try_except (get_duration_ (Message.text message))
      (fun e =>
         match e with
         | TimedeltaParseError text =>
             Some (v <- message_reply message
                          (py "Не могу распознать время. " ++ quote_html E text) ;;
                   return_ v)
         | _ => None
         end) ;;
  let '(duration, comment) := duration_comment in
  target_user <- find_target_user_get_db_user_by_tg_user target ;;
  try_except_else
    (chat_kick_ (Message.chat message) (User.tg_id target_user) duration ;;
     logger_info (py "User {user} kicked by {admin} for {duration}")
       [LInt (User.tg_id target_user); LInt (User.tg_id user);
        LDuration duration])
    (fun e =>
       match e with
       | BadRequest _ =>
           Some (logger_error (py "Failed to kick chat member: {error!r}")
                   [LExn e] ;;
                 return_ RFalse)
       | _ => None
       end)
    (fun _ =>
       ModeratorEvent_save_new_action
         (ModeratorAction.mk user target_user chat (py "ban") (Some duration)
            comment)) ;;
  let text :=
    py "Пользователь " ++ User.mention_link target_user
    ++ py " попал в бан этого чата." in
  let text :=
    if duration <? FOREVER_DURATION
    then text ++ py " Он сможет вернуться через " ++ format_timedelta E duration
    else text in
  message_reply message text ;;
  ret tt.

(** [args = message.text.split(maxsplit=1)]; [args[1]] raises [IndexError]
    when the text has no word at all. *)
Definition cmd_warn (message : Message.t) (chat : Chat.t) (target : TgUser.t)
    (user : User.t) : M E unit :=
  let args := Text.split 1 (Message.text message) in
  comment <-
    (if (length args =? 1)%nat then ret []
     else match nth_error args 1 with
          | Some c => ret c
          | None => raise IndexError
          end) ;;
  target_user <- find_target_user_get_db_user_by_tg_user target ;;
  ModeratorEvent_save_new_action
    (ModeratorAction.mk user target_user chat (py "warn") None comment) ;;
  let text :=
    py "Пользователь " ++ User.mention_link target_user
    ++ py " получил официальное предупреждение от модератора" in
  message_reply message text ;;
  ret tt.

End Moderator.

(** ** The dispatcher and its rate limiter *)

(** The bot between two messages: the rate limiter's last invocation times,
    in seconds, by actor and action class, the karma store, and every
    collaborator call made so far. *)
Record Bot (E : Env) := mkBot {
  buckets : gmap (Z * str) Z;
  karma : KarmaStore E;
  history : list event
}.

Arguments mkBot {E} buckets karma history.
Arguments buckets {E} b.
Arguments karma {E} b.
Arguments history {E} b.

Section Dispatcher.
Context {E : Env}.

(** A handler without a rate limit runs on the store of the bot. *)
Definition deliver (handler : M E retval) (b : Bot E)
    : Bot E * outcome retval :=
  match handler (karma b) with
  | mkRun s evs o => (mkBot (buckets b) s (history b ++ evs), o)
  end.

(** Modelled from the spec: [dp.throttled] is the rate limiter of section
    4.3, of which [src/] holds only the uses.  Its state is the
    RateLimitState of section 3: the time of the last invocation, keyed by
    actor and action class, created on the first invocation and updated on
    each one.  An invocation less than [rate] seconds after the last one does
    not execute the handler; the callback, when the use gives one, is called
    in its place. *)
Definition is_not_throttled (last_calls : gmap (Z * str) Z) (k : Z * str)
    (rate now : Z) : bool :=
  match last_calls !! k with
  | Some last_call => negb (now - last_call <? rate)
  | None => true
  end.

(** Modelled from the spec: the decorator [dp.throttled] of section 4.3, on
    the state above; [now] is the time of the invocation, in seconds. *)
Definition throttled {Args : Type} (actor : Args -> Z)
    (on_throttled : option (Args -> M E retval)) (key : str) (rate : Z)
    (func : Args -> M E retval) (now : Z) (args : Args) (b : Bot E)
    : Bot E * outcome retval :=
  let k := (actor args, key) in
  let b' := mkBot (<[k := now]> (buckets b)) (karma b) (history b) in
  if is_not_throttled (buckets b) k rate now then deliver (func args) b'
  else
    match on_throttled with
    | Some callback => deliver (callback args) b'
    | None => (b', Return RNone)
    end.

(** The handlers as [app/handlers] registers them. *)

Definition karma_change_args : Type := Message.t * Karma.t * User.t * Chat.t.

Definition karma_change_handler (now : Z) (args : karma_change_args)
    : Bot E -> Bot E * outcome retval :=
  throttled
    (fun '(message, _, _, _) => Message.from_user message)
    (Some (fun '(message, _, _, _) => to_fast_change_karma message))
    (py "karma_change") 30
    (fun '(message, karma, user, chat) =>
       body (karma_change message karma user chat))
    now args.

Definition report_handler (now : Z) (message : Message.t)
    : Bot E -> Bot E * outcome retval :=
  throttled Message.from_user None (py "report") 5
    (fun message => body (report message)) now message.

Definition moderator_args : Type := Message.t * Chat.t * User.t * TgUser.t.

Definition cmd_ro_handler (now : Z) (args : moderator_args)
    : Bot E -> Bot E * outcome retval :=
  let '(message, chat, user, target) := args in
  deliver (body (cmd_ro message chat user target)).

Definition cmd_ban_handler (now : Z) (args : moderator_args)
    : Bot E -> Bot E * outcome retval :=
  let '(message, chat, user, target) := args in
  deliver (body (cmd_ban message chat user target)).

Definition cmd_warn_handler (now : Z) (args : moderator_args)
    : Bot E -> Bot E * outcome retval :=
  let '(message, chat, user, target) := args in
  deliver (body (cmd_warn message chat target user)).

End Dispatcher.

(** ** app/utils/send_text_file.py *)

Module SendTextFile.
Section SendTextFile.
Context (E : Env).

Definition MAX_MESSAGE_SYMBOLS : Z := 4000.

(** Reading in text mode: [\r\n] and [\r] become [\n]. *)
Fixpoint translate_newlines (s : str) : str :=
  match s with
  | [] => []
  | c :: r =>
      if (c =? 13)%N
      then
        10%N ::
          match r with
          | c' :: r' =>
              if (c' =? 10)%N then translate_newlines r'
              else translate_newlines r
          | [] => []
          end
      else c :: translate_newlines r
  end.

(** The lines of a text, each with its line end. *)
Fixpoint lines_from (line : str) (s : str) : list str :=
  match s with
  | [] => match line with [] => [] | _ => [line] end
  | c :: r =>
      if (c =? 10)%N then (line ++ [c]) :: lines_from [] r
      else lines_from (line ++ [c]) r
  end.

Definition readlines (content : str) : list str :=
  lines_from [] (translate_newlines content).

Definition len (s : str) : Z := Z.of_nat (length s).

(** One turn of the loop over the lines: the buffer and the parts so far. *)
Definition add_line (state : str * list str) (line : str) : str * list str :=
  let '(buffer_lines, rez) := state in
  let line := quote_html E line in
  if len line >? MAX_MESSAGE_SYMBOLS
  then ([], (rez ++ [buffer_lines]) ++ textwrap_wrap E line MAX_MESSAGE_SYMBOLS)
  else if len buffer_lines + len line >? MAX_MESSAGE_SYMBOLS
  then ([], rez ++ [buffer_lines])
  else (buffer_lines ++ line, rez).

(** The files by name, each with its text; [open] of a missing name raises,
    [truncate(0)] leaves the empty text. *)
Definition split_text_file (fs : gmap str str) (file_name : str)
    : gmap str str * (list str + exn) :=
  match fs !! file_name with
  | None => (fs, inr FileNotFoundError)
  | Some content =>
      let '(buffer_lines, rez) :=
        fold_left add_line (readlines content)
          (hbold E file_name ++ py ":" ++ [10%N], []) in
      let rez := if len buffer_lines >? 0 then rez ++ [buffer_lines] else rez in
      (<[file_name := []]> fs, inl rez)
  end.

End SendTextFile.
End SendTextFile.

(** ** Reading a trace *)

Definition is_platform_call (ev : event) : bool :=
  match ev with EvRestrict _ _ _ _ | EvKick _ _ _ => true | _ => false end.

Definition is_audit (ev : event) : bool :=
  match ev with EvSaveNewAction _ => true | _ => false end.

Definition is_reply (ev : event) : bool :=
  match ev with EvReply _ _ => true | _ => false end.

Definition is_karma_call (ev : event) : bool :=
  match ev with EvChangeOrCreate _ _ _ _ => true | _ => false end.

(** The administrators that [report] mentions, as the spec words it: not a
    bot, and holding one of the two rights or being the creator. *)
Definition holds_notify_right (admin : ChatMember.t) : bool :=
  match ChatMember.can_delete_messages admin,
        ChatMember.can_restrict_members admin,
        ChatMember.status admin with
  | Some true, _, _ => true
  | _, Some true, _ => true
  | _, _, CREATOR => true
  | _, _, _ => false
  end.

Definition is_mentioned (admin : ChatMember.t) : bool :=
  negb (TgUser.is_bot (ChatMember.user admin)) && holds_notify_right admin.

(** The comment of a warning: what follows the command word. *)
Definition warn_comment (text : str) : option str :=
  match Text.split 1 text with
  | [] => None
  | [_] => Some []
  | _ :: c :: _ => Some c
  end.

(** ** A small deployment, for the examples *)

Module Demo.

Fixpoint str_eqb (a b : str) : bool :=
  match a, b with
  | [], [] => true
  | x :: a', y :: b' => (x =? y)%N && str_eqb a' b'
  | _, _ => false
  end.

Definition alice : User.t := User.mk 1 1001 (py "Alice") (py "@alice").
Definition bob : User.t := User.mk 2 1002 (py "Bob") (py "@bob").
Definition chat : Chat.t := Chat.mk (-100).

Definition tg_bob : TgUser.t :=
  TgUser.mk (Some 1002) (Some (py "bob")) false (py "tg://user?id=1002").

Definition tg_alice : TgUser.t :=
  TgUser.mk (Some 1001) (Some (py "alice")) false (py "tg://user?id=1001").

(** Alice, as a mention by name carries her: without an id. *)
Definition tg_alice_by_name : TgUser.t :=
  TgUser.mk None (Some (py "alice")) false (py "tg://user?id=None").

Definition user_of_tg_id (tg_id : Z) : User.t :=
  if tg_id =? 1001 then alice
  else if tg_id =? 1002 then bob
  else User.mk tg_id tg_id (py "user") (py "@user").

(** Modelled from the spec: the karma engine of section 4.5, the scores by
    user and chat.  A row that does not exist starts at [base]; the change
    that would leave the score under [floor] raises and changes nothing. *)
Definition spec_change_or_create (base floor : Z) (s : gmap (Z * Z) Z)
    (target_user : User.t) (chat : Chat.t) (user_changed : User.t)
    (how_change : Z) : (gmap (Z * Z) Z * Z * Z) + exn :=
  let k := (User.id target_user, Chat.chat_id chat) in
  let karma_new := default base (s !! k) + how_change in
  if karma_new <? floor then inr SubZeroKarma
  else inl (<[k := karma_new]> s, karma_new, 1).

Definition digit (n : Z) : str := [N.of_nat (48 + Z.to_nat (n mod 10))].

Definition parse (text : str) : timedelta + exn :=
  if str_eqb text (py "30m") then inl (timedelta_hours 1 / 2)
  else if str_eqb text (py "400d") then inl (timedelta_days 400)
  else inr (TimedeltaParseError text).

(** The platform refuses to restrict or remove the user 1001. *)
Definition refuse_1001 (chat tg_id : Z) (until_date : timedelta) : option exn :=
  if tg_id =? 1001 then Some (BadRequest (py "Not enough rights")) else None.

Definition env : Env := {|
  KarmaStore := gmap (Z * Z) Z;
  UserKarma := Z;
  Power := Z;
  get_or_create_from_tg_user := fun tg_user =>
    match TgUser.id tg_user with
    | Some i => inl (user_of_tg_id i)
    | None => inr (UserWithoutUserIdError None None)
    end;
  get_user_by_username := fun username =>
    match username with
    | Some n =>
        if str_eqb n (py "alice") then inl alice
        else if str_eqb n (py "bob") then inl bob
        else inr UsernameNotOccupied
    | None => inr IndexError
    end;
  change_or_create := spec_change_or_create 0 0;
  karma_round := fun k => digit k;
  format_power := fun p how => (if how <? 0 then py "-" else py "+") ++ digit p ++ py ".0";
  get_db_user_by_tg_user := fun tg_user =>
    match TgUser.id tg_user with
    | Some i => inl (user_of_tg_id i)
    | None => inr (UserWithoutUserIdError None None)
    end;
  chat_restrict := refuse_1001;
  chat_kick := refuse_1001;
  save_new_action := fun _ => None;
  get_administrators := fun _ => inl [];
  parse_timedelta_from_text := parse;
  format_timedelta := fun d => digit (d / 3600000000) ++ py " h";
  hbold := fun s => py "<b>" ++ s ++ py "</b>";
  quote_html := fun s => s;
  hide_link := fun url => py "<a href=" ++ url ++ py ">&#8288;</a>";
  textwrap_wrap := fun s _ => [s]
|}.

Definition message (message_id from_user : Z) (text : string) : Message.t :=
  Message.mk message_id from_user (-100) (py text).

Definition start : Bot env := mkBot ∅ ∅ [].

End Demo.

(** ** Words and blanks *)

(** A word: not empty and without white space. *)
Definition is_word (w : str) : bool :=
  match w with
  | [] => false
  | _ => forallb (fun c => negb (Text.isspace c)) w
  end.

(** A run of white space, the empty one too. *)
Definition is_blank (ws : str) : bool := forallb Text.isspace ws.

(** A text that does not start with white space. *)
Definition starts_with_word (s : str) : bool :=
  match s with
  | [] => false
  | c :: _ => negb (Text.isspace c)
  end.

(** A run of white space that is not empty. *)
Definition is_gap (ws : str) : bool :=
  match ws with
  | [] => false
  | _ => forallb Text.isspace ws
  end.

(** ** Coroutines over the files and the platform *)

(** The calls of the coroutines that ship the log files and that answer
    [!info]: a call of the handlers above, or one of the calls that only
    these make.  [send_message] is recorded with its keyword arguments, a
    keyword that is not given as [None]. *)
Inductive call :=
| CallOf (ev : event)
| CallGetUserInfo (user : User.t) (chat : Chat.t)
| CallGetKarma (user : User.t) (chat : Chat.t)
| CallSendMessage (chat_id : Z) (text : str)
    (disable_notification : option bool) (parse_mode : option str)
    (disable_web_page_preview : option bool)
| CallDelete (chat message_id : Z)
| CallSleep (delay : Z).

(** What these coroutines call and [src/] does not hold.  A fallible
    collaborator answers from the calls made before it, so that the same
    call can be accepted once and refused later.  [get_karma] gives the
    karma as the f-string prints it.  The three exception classes of
    [aiogram.utils.exceptions] are given by their instances. *)
Record Services := {
  get_user_info : list call -> User.t -> Chat.t -> list str + exn;
  get_karma : list call -> User.t -> Chat.t -> str + exn;
  bot_send_message : list call -> Z -> str -> option exn;
  Message_reply : list call -> Message.t -> str -> option exn;
  Message_delete : list call -> Message.t -> option exn;
  hpre : str -> str;
  Unauthorized : exn -> bool;
  MessageCantBeDeleted : exn -> bool;
  MessageToDeleteNotFound : exn -> bool
}.

(** The files by name and the calls made so far, in order. *)
Record World := mkWorld {
  files : gmap str str;
  calls : list call
}.

(** A coroutine without [return] in the middle: it ends with a value or it
    raises. *)
Definition IO (A : Type) : Type := World -> World * (A + exn).

Module IO.

Definition ret {A} (a : A) : IO A := fun w => (w, inl a).

Definition bind {A B} (m : IO A) (k : A -> IO B) : IO B :=
  fun w =>
    match m w with
    | (w1, inl a) => k a w1
    | (w1, inr e) => (w1, inr e)
    end.

(** A call [c] that is answered from the calls before it. *)
Definition perform {A} (c : call) (answer : list call -> A + exn) : IO A :=
  fun w =>
    match w with
    | mkWorld fs cs => (mkWorld fs (cs ++ [c]), answer cs)
    end.

Definition of_option (r : option exn) : unit + exn :=
  match r with
  | None => inl tt
  | Some e => inr e
  end.

(** [try: body except ...: handler finally: finalbody]; [handler e] is
    [None] when no [except] clause matches [e].  The [finally] block runs
    however the rest ends; when it raises, its exception is the one
    raised. *)
Definition try_except_finally {A} (body : IO A)
    (handler : exn -> option (IO A)) (finalbody : IO unit) : IO A :=
  fun w =>
    match
      match body w with
      | (w1, inl a) => (w1, inl a)
      | (w1, inr e) =>
          match handler e with
          | Some h => h w1
          | None => (w1, inr e)
          end
      end
    with
    | (w2, r) =>
        match finalbody w2 with
        | (w3, inl _) => (w3, r)
        | (w3, inr e) => (w3, inr e)
        end
    end.

(** [with suppress(...): body], for the classes given *)
Definition suppress (classes : list (exn -> bool)) (body : IO unit)
    : IO unit :=
  fun w =>
    match body w with
    | (w1, inl a) => (w1, inl a)
    | (w1, inr e) =>
        if existsb (fun cls => cls e) classes then (w1, inl tt)
        else (w1, inr e)
    end.

End IO.

Declare Scope io_scope.
Delimit Scope io_scope with io.
Notation "x <- m ;; k" := (IO.bind m (fun x => k))
  (at level 100, m at next level, right associativity) : io_scope.
Notation "m ;; k" := (IO.bind m (fun _ => k))
  (at level 100, right associativity) : io_scope.

(** ** app/utils/send_text_file.py, the sending *)

Module SendLog.
Section SendLog.
Context (E : Env) (P : Services).

Local Open Scope io_scope.

Definition PAUSE_SEC : Z := 3.

Definition bot_send_message_ (chat_id : Z) (text : str)
    (disable_notification : option bool) (parse_mode : option str)
    (disable_web_page_preview : option bool) : IO unit :=
  IO.perform
    (CallSendMessage chat_id text disable_notification parse_mode
       disable_web_page_preview)
    (fun cs => IO.of_option (bot_send_message P cs chat_id text)).

(** [asyncio.sleep] *)
Definition sleep (delay : Z) : IO unit :=
  IO.perform (CallSleep delay) (fun _ => inl tt).

(** [split_text_file] works on the files. *)
Definition split_text_file (file_name : str) : IO (list str) :=
  fun w =>
    match w with
    | mkWorld fs cs =>
        match SendTextFile.split_text_file E fs file_name with
        | (fs', r) => (mkWorld fs' cs, r)
        end
    end.

Fixpoint send_list_messages (list_msg : list str) (chat_id : Z) : IO unit :=
  match list_msg with
  | [] => IO.ret tt
  | msg :: list_msg =>
      bot_send_message_ chat_id (hpre P msg) (Some true) (Some (py "HTML"))
        None ;;
      sleep PAUSE_SEC ;;
      send_list_messages list_msg chat_id
  end.

(** The line boundaries of [str.splitlines]. *)
Definition is_line_boundary (c : N) : bool :=
  ((10 <=? c) && (c <=? 13) || (28 <=? c) && (c <=? 30)
   || (c =? 133) || (c =? 8232) || (c =? 8233))%N.

(** [str.splitlines]: the lines without their ends; [\r\n] is one end, and
    an end at the end of the text opens no further line. *)
Fixpoint splitlines_from (line : str) (s : str) : list str :=
  match s with
  | [] => match line with [] => [] | _ => [line] end
  | c :: r =>
      if (c =? 13)%N
      then
        line ::
          match r with
          | c' :: r' =>
              if (c' =? 10)%N then splitlines_from [] r'
              else splitlines_from [] r
          | [] => []
          end
      else if is_line_boundary c then line :: splitlines_from [] r
      else splitlines_from (line ++ [c]) r
  end.

Definition splitlines (s : str) : list str := splitlines_from [] s.

(** [parts_log[0]] is read only when there is one part. *)
Definition send_text_file (file_name : str) (chat_id : Z) : IO unit :=
  parts_log <- split_text_file file_name ;;
  if (length parts_log =? 1)%nat
     && (length (splitlines (nth 0 parts_log [])) =? 1)%nat
  then IO.ret tt
  else send_list_messages parts_log chat_id.

End SendLog.
End SendLog.

(** ** app/handlers/moderator.py, the rest *)

Module Info.
Section Info.
Context (E : Env) (P : Services).

Local Open Scope io_scope.

Definition get_db_user_by_tg_user_ (target : TgUser.t) : IO User.t :=
  IO.perform (CallOf (EvGetDbUserByTgUser target))
    (fun _ => get_db_user_by_tg_user E target).

Definition get_user_info_ (target_user : User.t) (chat : Chat.t)
    : IO (list str) :=
  IO.perform (CallGetUserInfo target_user chat)
    (fun cs => get_user_info P cs target_user chat).

Definition get_karma_ (target_user : User.t) (chat : Chat.t) : IO str :=
  IO.perform (CallGetKarma target_user chat)
    (fun cs => get_karma P cs target_user chat).

Definition message_reply_ (message : Message.t) (text : str) : IO unit :=
  IO.perform (CallOf (EvReply (Message.message_id message) text))
    (fun cs => IO.of_option (Message_reply P cs message text)).

Definition message_delete_ (message : Message.t) : IO unit :=
  IO.perform
    (CallDelete (Message.chat message) (Message.message_id message))
    (fun cs => IO.of_option (Message_delete P cs message)).

Definition start_hint : str :=
  py "Напишите мне в личку /start и повторите команду.".

Definition get_info_about_user (message : Message.t) (chat : Chat.t)
    (target : TgUser.t) : IO unit :=
  target_user <- get_db_user_by_tg_user_ target ;;
  info <- get_user_info_ target_user chat ;;
  IO.try_except_finally
    (karma <- get_karma_ target_user chat ;;
     SendLog.bot_send_message_ P (Message.from_user message)
       ((py "Данные на " ++ User.mention_link target_user ++ py " ("
         ++ karma ++ py "):" ++ [10%N])
        ++ Text.join [10%N] info)
       None None (Some true))
    (fun e =>
       if Unauthorized P e then Some (message_reply_ message start_hint)
       else None)
    (IO.suppress [MessageCantBeDeleted P; MessageToDeleteNotFound P]
       (message_delete_ message)).

(** The first [cmd_ro_bot_not_admin]: the bot lacks the moderator's
    rights. *)
Definition cmd_ro_bot_not_admin_bot (message : Message.t) : IO unit :=
  message_reply_ message
    (py "Чтобы я выполнял функции модератора, дайте мне соотвествующие права").

(** The second [cmd_ro_bot_not_admin]: the user lacks them. *)
Definition cmd_ro_bot_not_admin (message : Message.t) : IO unit :=
  IO.suppress [MessageCantBeDeleted P; MessageToDeleteNotFound P]
    (message_delete_ message).

End Info.
End Info.

(** ** Reading the calls *)

Definition is_send (c : call) : bool :=
  match c with CallSendMessage _ _ _ _ _ => true | _ => false end.

Definition is_delete (c : call) : bool :=
  match c with CallDelete _ _ => true | _ => false end.

(** The calls of [send_list_messages] for messages that are all accepted:
    each message in [hpre], silently, as HTML, and the pause after it. *)
Definition sent (P : Services) (chat_id : Z) (list_msg : list str)
    : list call :=
  flat_map
    (fun msg =>
       [CallSendMessage chat_id (hpre P msg) (Some true) (Some (py "HTML"))
          None;
        CallSleep 3])
    list_msg.

(** A text without line boundary. *)
Definition one_line (s : str) : bool :=
  forallb (fun c => negb (SendLog.is_line_boundary c)) s.

(** A call that shows the group nothing of a user: a message goes to the
    sender of the command, a reply is the hint to start the bot. *)
Definition discreet (message : Message.t) (c : call) : bool :=
  match c with
  | CallSendMessage chat_id _ _ _ _ => chat_id =? Message.from_user message
  | CallOf (EvReply _ text) => bool_decide (text = Info.start_hint)
  | _ => true
  end.

(** The private message of [!info]. *)
Definition info_text (target_user : User.t) (karma : str) (info : list str)
    : str :=
  (py "Данные на " ++ User.mention_link target_user ++ py " (" ++ karma
   ++ py "):" ++ [10%N])
  ++ Text.join [10%N] info.

(** ** More deployments, for the examples *)

Module Demo2.

(** The deployment of [Demo] with an audit log that refuses every record. *)
Definition refusing_audit : Env := {|
  KarmaStore := KarmaStore Demo.env;
  UserKarma := UserKarma Demo.env;
  Power := Power Demo.env;
  get_or_create_from_tg_user := get_or_create_from_tg_user Demo.env;
  get_user_by_username := get_user_by_username Demo.env;
  change_or_create := change_or_create Demo.env;
  karma_round := karma_round Demo.env;
  format_power := format_power Demo.env;
  get_db_user_by_tg_user := get_db_user_by_tg_user Demo.env;
  chat_restrict := chat_restrict Demo.env;
  chat_kick := chat_kick Demo.env;
  save_new_action := fun _ => Some (OtherError (py "OperationalError"));
  get_administrators := get_administrators Demo.env;
  parse_timedelta_from_text := parse_timedelta_from_text Demo.env;
  format_timedelta := format_timedelta Demo.env;
  hbold := hbold Demo.env;
  quote_html := quote_html Demo.env;
  hide_link := hide_link Demo.env;
  textwrap_wrap := textwrap_wrap Demo.env
|}.

(** Log files: a line of [n] letters, a file whose first line does not fit
    behind the heading, and a file of two lines that are too long for one
    part. *)
Definition line_of (n : nat) : str := repeat 120%N n ++ [10%N].

Definition tail_line : str := py "tail" ++ [10%N].

Definition crowded_log : str := line_of 3990 ++ tail_line.

Definition long_log : str := line_of 4001 ++ line_of 4001.

(** The platform of the examples: it accepts two messages to a group, a
    chat with a negative id, and refuses further ones, it cannot write to
    the user 1002, who never started the bot, and it cannot delete the
    message 13. *)
Definition refuse_send (cs : list call) (chat_id : Z) (text : str)
    : option exn :=
  if chat_id =? 1002 then Some (OtherError (py "BotBlocked"))
  else if (chat_id <? 0) && (2 <=? length (filter is_send cs))%nat
  then Some (OtherError (py "RetryAfter"))
  else None.

Definition refuse_delete (cs : list call) (message : Message.t)
    : option exn :=
  if Message.message_id message =? 13
  then Some (BadRequest (py "Message can't be deleted"))
  else None.

Definition is_other (name : str) (e : exn) : bool :=
  match e with
  | OtherError n => Demo.str_eqb n name
  | _ => false
  end.

Definition is_bad_request (description : str) (e : exn) : bool :=
  match e with
  | BadRequest d => Demo.str_eqb d description
  | _ => false
  end.

Definition services : Services := {|
  get_user_info := fun _ _ _ => inl [py "warn: 1"; py "ro: 0"];
  get_karma := fun _ _ _ => inl (py "5");
  bot_send_message := refuse_send;
  Message_reply := fun _ _ _ => None;
  Message_delete := refuse_delete;
  hpre := fun s => py "<pre>" ++ s ++ py "</pre>";
  Unauthorized := is_other (py "BotBlocked");
  MessageCantBeDeleted := is_bad_request (py "Message can't be deleted");
  MessageToDeleteNotFound :=
    is_bad_request (py "Message to delete not found")
|}.

(** A platform that cannot delete anything: the bot is no administrator. *)
Definition no_rights : Services := {|
  get_user_info := get_user_info services;
  get_karma := get_karma services;
  bot_send_message := bot_send_message services;
  Message_reply := Message_reply services;
  Message_delete := fun _ _ => Some (OtherError (py "NotEnoughRightsError"));
  hpre := hpre services;
  Unauthorized := Unauthorized services;
  MessageCantBeDeleted := MessageCantBeDeleted services;
  MessageToDeleteNotFound := MessageToDeleteNotFound services
|}.

Definition world : World := mkWorld {[ py "bot.log" := py "started" ]} [].

Definition empty_log : World := mkWorld {[ py "bot.log" := ([] : str) ]} [].

End Demo2.

(** * Properties *)

Arguments Text.lit : simpl never.

(** Unfolding of the coroutine combinators and the collaborator calls. *)
Ltac run :=
  unfold message_reply, logger_info, logger_error,
    User_get_or_create_from_tg_user, UserGetter_get_user_by_username,
    UserKarma_change_or_create, find_target_user_get_db_user_by_tg_user,
    chat_restrict_, chat_kick_, ModeratorEvent_save_new_action,
    chat_get_administrators, get_duration_,
    try_except, try_except_else, bind, ask, tell, emit, ret, return_, raise,
    body in *;
  cbn in *.

(** ** The administrators that a report mentions *)

Lemma need_notify_admin_holds (admin : ChatMember.t) :
  need_notify_admin admin = holds_notify_right admin.
Proof.
  unfold need_notify_admin, holds_notify_right, truthy.
  destruct (ChatMember.can_delete_messages admin) as [[|]|],
    (ChatMember.can_restrict_members admin) as [[|]|],
    (ChatMember.status admin); reflexivity.
Qed.

Lemma fold_add_mention (E : Env) (admins : list ChatMember.t) (acc : str) :
  fold_left (add_mention (E:=E)) admins acc
  = acc ++ concat (map (fun admin => hide_link E (TgUser.url (ChatMember.user admin)))
                     (List.filter is_mentioned admins)).
Proof.
  revert acc. induction admins as [|admin admins IH]; intros acc; cbn.
  - now rewrite app_nil_r.
  - rewrite IH. unfold add_mention, is_mentioned.
    rewrite need_notify_admin_holds.
    destruct (TgUser.is_bot (ChatMember.user admin)); cbn; [reflexivity|].
    destruct (holds_notify_right admin); cbn; [|reflexivity].
    now rewrite <- app_assoc.
Qed.

(** C9: a report asks for the administrators of the chat and replies with
    the thanks followed by the hidden links of exactly those administrators,
    in their order, that are not bots and hold the right to delete messages,
    the right to restrict members, or are the creator; when the platform does
    not give the administrators, nothing is sent. *)
Theorem C9_report_mentions (E : Env) (message : Message.t) (s : KarmaStore E) :
  events (report message s)
  = EvLogInfo (py "user {user} report for message {message}")
      [LInt (Message.from_user message); LInt (Message.message_id message)]
    :: EvGetAdministrators (Message.chat message)
    :: match get_administrators E (Message.chat message) with
       | inl admins =>
           [EvReply (Message.message_id message)
              (py "Спасибо за сообщение. Мы обязательно разберёмся. "
               ++ concat (map (fun admin =>
                                 hide_link E (TgUser.url (ChatMember.user admin)))
                            (List.filter is_mentioned admins))
               ++ py " ")]
       | inr _ => []
       end.
Proof.
  unfold report, get_mentions_admins. run.
  destruct (get_administrators E (Message.chat message)) as [admins|e]; cbn.
  - now rewrite fold_add_mention.
  - reflexivity.
Qed.

(** ** Warnings *)

(** C7: a warning never calls the restrict or kick primitive and leaves the
    karma store alone; when the target resolves and the audit log takes the
    record, its calls are exactly: resolve the target, save one record with
    the moderator, the target, the chat, the kind warn, no duration and the
    comment, and reply with the acknowledgement. *)
Theorem C7_warn_effects (E : Env) (message : Message.t) (chat : Chat.t)
    (target : TgUser.t) (user : User.t) (s : KarmaStore E) :
  let r := cmd_warn message chat target user s in
  existsb is_platform_call (events r) = false
  /\ store r = s
  /\ forall (comment : str) (target_user : User.t),
       warn_comment (Message.text message) = Some comment ->
       get_db_user_by_tg_user E target = inl target_user ->
       save_new_action E
         (ModeratorAction.mk user target_user chat (py "warn") None comment)
       = None ->
       events r
       = [EvGetDbUserByTgUser target;
          EvSaveNewAction
            (ModeratorAction.mk user target_user chat (py "warn") None comment);
          EvReply (Message.message_id message)
            (py "Пользователь " ++ User.mention_link target_user
             ++ py " получил официальное предупреждение от модератора")]
       /\ out r = Next tt.
Proof.
  unfold cmd_warn, warn_comment.
  destruct (Text.split 1 (Message.text message)) as [|w [|c rest]]; run.
  - split; [reflexivity|split; [reflexivity|]]. intros ? ? H; discriminate H.
  - destruct (get_db_user_by_tg_user E target) as [tu|e]; cbn.
    + destruct (save_new_action E _) eqn:Hs; cbn;
        (split; [reflexivity|split; [reflexivity|]]);
        intros c tu' Hc Ht Ha; injection Hc as <-; injection Ht as <-;
        rewrite Hs in Ha; try discriminate Ha; split; reflexivity.
    + split; [reflexivity|split; [reflexivity|]].
      intros ? ? _ H; discriminate H.
  - destruct (get_db_user_by_tg_user E target) as [tu|e]; cbn.
    + destruct (save_new_action E _) eqn:Hs; cbn;
        (split; [reflexivity|split; [reflexivity|]]);
        intros c' tu' Hc Ht Ha; injection Hc as <-; injection Ht as <-;
        rewrite Hs in Ha; try discriminate Ha; split; reflexivity.
    + split; [reflexivity|split; [reflexivity|]].
      intros ? ? _ H; discriminate H.
Qed.

Lemma C7_warn_effects_witness :
  events (cmd_warn (E:=Demo.env) (Demo.message 7 1001 "!warn be nice")
            Demo.chat Demo.tg_bob Demo.alice ∅)
  = [EvGetDbUserByTgUser Demo.tg_bob;
     EvSaveNewAction
       (ModeratorAction.mk Demo.alice Demo.bob Demo.chat (py "warn") None
          (py "be nice"));
     EvReply 7
       (py "Пользователь " ++ User.mention_link Demo.bob
        ++ py " получил официальное предупреждение от модератора")]
  /\ out (cmd_warn (E:=Demo.env) (Demo.message 7 1001 "!warn be nice")
            Demo.chat Demo.tg_bob Demo.alice ∅) = Next tt.
Proof.
  apply (C7_warn_effects Demo.env (Demo.message 7 1001 "!warn be nice")
           Demo.chat Demo.tg_bob Demo.alice ∅);
    reflexivity.
Defined.

(** ** Mutes and bans *)

(** C5: when the duration word of a mute or a ban does not parse, the
    handler replies with the detail that the parse error carries, quoted for
    HTML, and stops there: that reply is its only call, so nothing is asked
    of the platform and nothing is written to the audit log. *)
Theorem C5_parse_error_aborts (E : Env) (message : Message.t) (chat : Chat.t)
    (user : User.t) (target : TgUser.t) (s : KarmaStore E)
    (duration_text comment detail : str) :
  get_moderator_message_args (Message.text message)
  = inl (duration_text, comment) ->
  duration_text <> [] ->
  parse_timedelta_from_text E duration_text = inr (TimedeltaParseError detail) ->
  let reply := py "Не могу распознать время. " ++ quote_html E detail in
  cmd_ro message chat user target s
  = mkRun s [EvReply (Message.message_id message) reply]
      (Return (RMessage reply))
  /\ cmd_ban message chat user target s
     = mkRun s [EvReply (Message.message_id message) reply]
         (Return (RMessage reply)).
Proof.
  intros Hargs Hne Hparse.
  assert (Hd : get_duration (E:=E) (Message.text message)
               = inr (TimedeltaParseError detail)).
  { unfold get_duration. rewrite Hargs.
    destruct duration_text; [contradiction|]. now rewrite Hparse. }
  unfold cmd_ro, cmd_ban. run. rewrite Hd. cbn. split; reflexivity.
Qed.

Lemma C5_parse_error_aborts_witness :
  cmd_ro (E:=Demo.env) (Demo.message 7 1001 "!ro soon spam") Demo.chat
    Demo.alice Demo.tg_bob ∅
  = mkRun ∅ [EvReply 7 (py "Не могу распознать время. " ++ py "soon")]
      (Return (RMessage (py "Не могу распознать время. " ++ py "soon")))
  /\ cmd_ban (E:=Demo.env) (Demo.message 7 1001 "!ro soon spam") Demo.chat
       Demo.alice Demo.tg_bob ∅
     = mkRun ∅ [EvReply 7 (py "Не могу распознать время. " ++ py "soon")]
         (Return (RMessage (py "Не могу распознать время. " ++ py "soon"))).
Proof.
  apply (C5_parse_error_aborts Demo.env (Demo.message 7 1001 "!ro soon spam")
           Demo.chat Demo.alice Demo.tg_bob ∅ (py "soon") (py "spam")
           (py "soon")).
  - reflexivity.
  - discriminate.
  - reflexivity.
Defined.

(** C2: when the platform refuses the restriction of a mute or the removal
    of a ban, whatever the error, the handler writes no audit record and
    sends no reply, and it leaves the karma store alone: on a [BadRequest] it
    logs the error and returns [False], any other error goes up to the
    caller.  Conversely, a run that writes an audit record has first asked
    the platform, and the platform has accepted. *)
Theorem C2_platform_failure_no_audit (E : Env) (message : Message.t)
    (chat : Chat.t) (user : User.t) (target : TgUser.t) (s : KarmaStore E) :
  (forall duration comment target_user e,
     get_duration (E:=E) (Message.text message) = inl (duration, comment) ->
     get_db_user_by_tg_user E target = inl target_user ->
     chat_restrict E (Message.chat message) (User.tg_id target_user) duration
     = Some e ->
     let r := cmd_ro message chat user target s in
     existsb is_audit (events r) = false
     /\ existsb is_reply (events r) = false
     /\ store r = s
     /\ out r = match e with
                | BadRequest _ => Return RFalse
                | _ => Raise e
                end)
  /\ (forall duration comment target_user e,
        get_duration (E:=E) (Message.text message) = inl (duration, comment) ->
        get_db_user_by_tg_user E target = inl target_user ->
        chat_kick E (Message.chat message) (User.tg_id target_user) duration
        = Some e ->
        let r := cmd_ban message chat user target s in
        existsb is_audit (events r) = false
        /\ existsb is_reply (events r) = false
        /\ store r = s
        /\ out r = match e with
                   | BadRequest _ => Return RFalse
                   | _ => Raise e
                   end)
  /\ (existsb is_audit (events (cmd_ro message chat user target s)) = true ->
      exists duration comment target_user rest,
        events (cmd_ro message chat user target s)
        = EvGetDbUserByTgUser target
          :: EvRestrict (Message.chat message) (User.tg_id target_user) false
               duration
          :: EvLogInfo (py "User {user} restricted by {admin} for {duration}")
               [LInt (User.tg_id target_user); LInt (User.tg_id user);
                LDuration duration]
          :: EvSaveNewAction
               (ModeratorAction.mk user target_user chat (py "ro")
                  (Some duration) comment)
          :: rest
        /\ chat_restrict E (Message.chat message) (User.tg_id target_user)
             duration = None)
  /\ (existsb is_audit (events (cmd_ban message chat user target s)) = true ->
      exists duration comment target_user rest,
        events (cmd_ban message chat user target s)
        = EvGetDbUserByTgUser target
          :: EvKick (Message.chat message) (User.tg_id target_user) duration
          :: EvLogInfo (py "User {user} kicked by {admin} for {duration}")
               [LInt (User.tg_id target_user); LInt (User.tg_id user);
                LDuration duration]
          :: EvSaveNewAction
               (ModeratorAction.mk user target_user chat (py "ban")
                  (Some duration) comment)
          :: rest
        /\ chat_kick E (Message.chat message) (User.tg_id target_user)
             duration = None).
Proof.
  split; [|split; [|split]].
  - intros duration comment target_user e Hd Ht Hr.
    unfold cmd_ro. run. rewrite Hd. cbn. rewrite Ht. cbn. rewrite Hr. cbn.
    destruct e; cbn; repeat split; reflexivity.
  - intros duration comment target_user e Hd Ht Hr.
    unfold cmd_ban. run. rewrite Hd. cbn. rewrite Ht. cbn. rewrite Hr. cbn.
    destruct e; cbn; repeat split; reflexivity.
  - unfold cmd_ro. run.
    destruct (get_duration (Message.text message)) as [[duration comment]|e];
      cbn.
    + destruct (get_db_user_by_tg_user E target) as [target_user|e]; cbn;
        [|discriminate].
      destruct (chat_restrict E (Message.chat message) (User.tg_id target_user)
                  duration) as [e|] eqn:Hr; cbn.
      * destruct e; cbn; discriminate.
      * intros _. exists duration, comment, target_user.
        destruct (save_new_action E _); cbn; eexists; split;
          reflexivity || assumption.
    + destruct e; cbn; discriminate.
  - unfold cmd_ban. run.
    destruct (get_duration (Message.text message)) as [[duration comment]|e];
      cbn.
    + destruct (get_db_user_by_tg_user E target) as [target_user|e]; cbn;
        [|discriminate].
      destruct (chat_kick E (Message.chat message) (User.tg_id target_user)
                  duration) as [e|] eqn:Hr; cbn.
      * destruct e; cbn; discriminate.
      * intros _. exists duration, comment, target_user.
        destruct (save_new_action E _); cbn; eexists; split;
          reflexivity || assumption.
    + destruct e; cbn; discriminate.
Qed.

Lemma C2_platform_failure_no_audit_witness :
  let ro := cmd_ro (E:=Demo.env) (Demo.message 7 1002 "!ro 30m flood")
              Demo.chat Demo.bob Demo.tg_alice ∅ in
  let ban := cmd_ban (E:=Demo.env) (Demo.message 7 1002 "!ro 30m flood")
               Demo.chat Demo.bob Demo.tg_alice ∅ in
  (existsb is_audit (events ro) = false
   /\ existsb is_reply (events ro) = false
   /\ store ro = ∅ /\ out ro = Return RFalse)
  /\ (existsb is_audit (events ban) = false
      /\ existsb is_reply (events ban) = false
      /\ store ban = ∅ /\ out ban = Return RFalse).
Proof.
  destruct (C2_platform_failure_no_audit Demo.env
              (Demo.message 7 1002 "!ro 30m flood") Demo.chat Demo.bob
              Demo.tg_alice ∅) as [Hro [Hban _]].
  split.
  - apply (Hro (timedelta_hours 1 / 2) (py "flood") Demo.alice
             (BadRequest (py "Not enough rights"))); reflexivity.
  - apply (Hban (timedelta_hours 1 / 2) (py "flood") Demo.alice
             (BadRequest (py "Not enough rights"))); reflexivity.
Defined.

(** C6: a ban that the platform accepts and the audit log records ends with
    one reply.  The reply names the target and states the ban; it goes on
    with the clause on the return, made of the formatted duration, exactly
    when the duration is less than [FOREVER_DURATION], which is 366 days. *)
Theorem C6_ban_reply (E : Env) (message : Message.t) (chat : Chat.t)
    (user : User.t) (target : TgUser.t) (s : KarmaStore E)
    (duration : timedelta) (comment : str) (target_user : User.t) :
  get_duration (E:=E) (Message.text message) = inl (duration, comment) ->
  get_db_user_by_tg_user E target = inl target_user ->
  chat_kick E (Message.chat message) (User.tg_id target_user) duration = None ->
  save_new_action E
    (ModeratorAction.mk user target_user chat (py "ban") (Some duration) comment)
  = None ->
  let banned :=
    py "Пользователь " ++ User.mention_link target_user
    ++ py " попал в бан этого чата." in
  let clause := py " Он сможет вернуться через " ++ format_timedelta E duration in
  FOREVER_DURATION = 366 * 24 * 3600 * 1000000
  /\ exists text,
       events (cmd_ban message chat user target s)
       = [EvGetDbUserByTgUser target;
          EvKick (Message.chat message) (User.tg_id target_user) duration;
          EvLogInfo (py "User {user} kicked by {admin} for {duration}")
            [LInt (User.tg_id target_user); LInt (User.tg_id user);
             LDuration duration];
          EvSaveNewAction
            (ModeratorAction.mk user target_user chat (py "ban")
               (Some duration) comment);
          EvReply (Message.message_id message) text]
       /\ (text = banned ++ clause <-> duration < FOREVER_DURATION)
       /\ (text = banned <-> FOREVER_DURATION <= duration).
Proof.
  intros Hd Ht Hk Hs banned clause. split; [reflexivity|].
  assert (Hneq : banned ++ clause <> banned).
  { intros H. apply (f_equal (@length N)) in H.
    unfold clause in H. rewrite !length_app in H.
    change (length (py " Он сможет вернуться через ")) with 27%nat in H. lia. }
  unfold cmd_ban. run. rewrite Hd. cbn. rewrite Ht. cbn. rewrite Hk. cbn.
  rewrite Hs. cbn.
  destruct (duration <? FOREVER_DURATION) eqn:Hlt; cbn.
  - apply Z.ltb_lt in Hlt. exists (banned ++ clause).
    split; [reflexivity|]. split; split; intros H.
    + assumption.
    + reflexivity.
    + contradiction.
    + lia.
  - apply Z.ltb_ge in Hlt. exists banned.
    split; [reflexivity|]. split; split; intros H.
    + symmetry in H. contradiction.
    + lia.
    + assumption.
    + reflexivity.
Qed.

Lemma C6_ban_reply_witness :
  FOREVER_DURATION = 366 * 24 * 3600 * 1000000
  /\ exists text,
       events (cmd_ban (E:=Demo.env) (Demo.message 7 1001 "!ban 400d spam")
                 Demo.chat Demo.alice Demo.tg_bob ∅)
       = [EvGetDbUserByTgUser Demo.tg_bob;
          EvKick (-100) 1002 (timedelta_days 400);
          EvLogInfo (py "User {user} kicked by {admin} for {duration}")
            [LInt 1002; LInt 1001; LDuration (timedelta_days 400)];
          EvSaveNewAction
            (ModeratorAction.mk Demo.alice Demo.bob Demo.chat (py "ban")
               (Some (timedelta_days 400)) (py "spam"));
          EvReply 7 text]
       /\ (text
           = (py "Пользователь " ++ py "@bob" ++ py " попал в бан этого чата.")
             ++ py " Он сможет вернуться через "
             ++ format_timedelta Demo.env (timedelta_days 400)
           <-> timedelta_days 400 < FOREVER_DURATION)
       /\ (text
           = py "Пользователь " ++ py "@bob" ++ py " попал в бан этого чата."
           <-> FOREVER_DURATION <= timedelta_days 400).
Proof.
  apply (C6_ban_reply Demo.env (Demo.message 7 1001 "!ban 400d spam")
           Demo.chat Demo.alice Demo.tg_bob ∅ (timedelta_days 400) (py "spam")
           Demo.bob);
    reflexivity.
Defined.

(** ** Karma changes *)

Lemma can_change_karma_false_iff (target_user user : User.t) :
  can_change_karma target_user user = false
  <-> User.id target_user = User.id user.
Proof.
  unfold can_change_karma. rewrite negb_false_iff, Z.eqb_eq.
  split; intros H; now symmetry.
Qed.

(** On the path on which the target has an id, a change of one's own karma
    is only logged. *)
Lemma karma_change_self_with_id (E : Env) (message : Message.t)
    (karma : Karma.t) (user : User.t) (chat : Chat.t) (s : KarmaStore E)
    (target_user : User.t) :
  get_or_create_from_tg_user E (Karma.user karma) = inl target_user ->
  User.id target_user = User.id user ->
  karma_change message karma user chat s
  = mkRun s
      [EvGetOrCreateFromTgUser (Karma.user karma);
       EvLogInfo (py "user {user} try to change self karma")
         [LInt (User.tg_id user)]]
      (Return RNone).
Proof.
  intros Ht Hid. apply can_change_karma_false_iff in Hid.
  unfold karma_change. run. rewrite Ht. cbn. rewrite Hid. reflexivity.
Qed.

(** On the path on which the target is found by its name, the engine is
    called whoever the target is. *)
Lemma karma_change_by_username_calls_engine (E : Env) (message : Message.t)
    (karma : Karma.t) (user : User.t) (chat : Chat.t) (s : KarmaStore E)
    (user_id chat_id : option Z) (target_user : User.t) :
  get_or_create_from_tg_user E (Karma.user karma)
  = inr (UserWithoutUserIdError user_id chat_id) ->
  get_user_by_username E (TgUser.username (Karma.user karma))
  = inl target_user ->
  exists rest,
    events (karma_change message karma user chat s)
    = EvGetOrCreateFromTgUser (Karma.user karma)
      :: EvGetUserByUsername (TgUser.username (Karma.user karma))
      :: EvChangeOrCreate target_user chat user (Karma.karma_change karma)
      :: rest.
Proof.
  intros Hg Hu. unfold karma_change. run. rewrite Hg. cbn. rewrite Hu. cbn.
  destruct (change_or_create E s target_user chat user
              (Karma.karma_change karma)) as [[[s' uk] power]|e]; cbn.
  - destruct (how_change (Karma.karma_change karma)); cbn; eexists;
      reflexivity.
  - destruct e; cbn; eexists; reflexivity.
Qed.

(** C1: Alice, whose row has the id 1, changes the karma of the user that
    her message mentions by the name alice, a mention that carries no id.
    The target is found by the name and is Alice herself: [can_change_karma]
    is false on the pair, yet it is not asked on this path; the engine is
    called with Alice as target and as actor, her karma changes and the reply
    is sent. *)
Theorem C1_self_karma_by_username :
  let r := karma_change (E:=Demo.env) (Demo.message 7 1001 "+")
             (Karma.mk Demo.tg_alice_by_name 1) Demo.alice Demo.chat ∅ in
  can_change_karma Demo.alice Demo.alice = false
  /\ events r
     = [EvGetOrCreateFromTgUser Demo.tg_alice_by_name;
        EvGetUserByUsername (Some (py "alice"));
        EvChangeOrCreate Demo.alice Demo.chat Demo.alice 1;
        EvReply 7 (py "Вы увеличили карму <b>Alice</b> до <b>1</b> (+1.0)");
        EvLogInfo (py "user {user} change karma of {target_user}")
          [LInt 1001; LInt 1001]]
  /\ store r !! (1, -100) = Some 1
  /\ (∅ : gmap (Z * Z) Z) !! (1, -100) = None.
Proof. vm_compute. repeat split; reflexivity. Qed.

(** C3: in a run of [karma_change] that calls the engine, when the engine
    raises [SubZeroKarma] the karma store is what it was, the run has called
    the engine once, has written nothing to the audit log, and ends with the
    log line and the one reply that the actor has too little karma, which is
    also what the handler returns. *)
Theorem C3_sub_zero_karma (E : Env) (message : Message.t) (karma : Karma.t)
    (user : User.t) (chat : Chat.t) (s : KarmaStore E) (target_user : User.t) :
  let r := karma_change message karma user chat s in
  let call :=
    EvChangeOrCreate target_user chat user (Karma.karma_change karma) in
  let reply :=
    EvReply (Message.message_id message)
      (py "У Вас слишком мало кармы для этого") in
  In call (events r) ->
  change_or_create E s target_user chat user (Karma.karma_change karma)
  = inr SubZeroKarma ->
  store r = s
  /\ out r = Return (RMessage (py "У Вас слишком мало кармы для этого"))
  /\ List.filter is_reply (events r) = [reply]
  /\ List.filter is_karma_call (events r) = [call]
  /\ existsb is_audit (events r) = false
  /\ exists before,
       events r
       = before
         ++ [call;
             EvLogInfo
               (py "user {user} try to change karma but have negative karma")
               [LInt (User.tg_id user)];
             reply].
Proof.
  intros r call reply Hin Hraise. subst r call reply.
  revert Hin. unfold karma_change. run.
  destruct (get_or_create_from_tg_user E (Karma.user karma)) as [t|e]; cbn.
  - destruct (can_change_karma t user); cbn.
    + destruct (change_or_create E s t chat user (Karma.karma_change karma))
        as [[[s' uk] power]|e] eqn:Hc; cbn.
      * destruct (how_change (Karma.karma_change karma)); cbn;
          intros [H|[H|H]]; try discriminate H; try contradiction;
          try (destruct H as [H|[H|H]]; try discriminate H;
               try contradiction);
          injection H as ->; congruence.
      * destruct e; cbn; intros [H|[H|H]];
          try discriminate H; try contradiction;
          try (destruct H as [H|[H|H]]; try discriminate H;
               try contradiction);
          try (injection H as ->; congruence).
        injection H as ->.
        repeat split; try reflexivity.
        exists [EvGetOrCreateFromTgUser (Karma.user karma)]. reflexivity.
    + intros [H|[H|H]]; try discriminate H; contradiction.
  - destruct e; cbn; try (intros [H|H]; try discriminate H; contradiction).
    destruct (get_user_by_username E (TgUser.username (Karma.user karma)))
      as [t|e]; cbn.
    + destruct (change_or_create E s t chat user (Karma.karma_change karma))
        as [[[s' uk] power]|e] eqn:Hc; cbn.
      * destruct (how_change (Karma.karma_change karma)); cbn;
          intros [H|[H|[H|H]]]; try discriminate H; try contradiction;
          try (destruct H as [H|[H|H]]; try discriminate H;
               try contradiction);
          injection H as ->; congruence.
      * destruct e; cbn; intros [H|[H|[H|H]]];
          try discriminate H; try contradiction;
          try (destruct H as [H|[H|H]]; try discriminate H;
               try contradiction);
          try (injection H as ->; congruence).
        injection H as ->.
        repeat split; try reflexivity.
        exists [EvGetOrCreateFromTgUser (Karma.user karma);
                EvGetUserByUsername (TgUser.username (Karma.user karma))].
        reflexivity.
    + destruct e; cbn; intros [H|[H|H]]; try discriminate H; contradiction.
Qed.

Lemma C3_sub_zero_karma_witness :
  let r := karma_change (E:=Demo.env) (Demo.message 7 1001 "-")
             (Karma.mk Demo.tg_bob (-1)) Demo.alice Demo.chat ∅ in
  store r = ∅
  /\ out r = Return (RMessage (py "У Вас слишком мало кармы для этого"))
  /\ List.filter is_reply (events r)
     = [EvReply 7 (py "У Вас слишком мало кармы для этого")]
  /\ List.filter is_karma_call (events r)
     = [EvChangeOrCreate Demo.bob Demo.chat Demo.alice (-1)]
  /\ existsb is_audit (events r) = false
  /\ exists before,
       events r
       = before
         ++ [EvChangeOrCreate Demo.bob Demo.chat Demo.alice (-1);
             EvLogInfo
               (py "user {user} try to change karma but have negative karma")
               [LInt 1001];
             EvReply 7 (py "У Вас слишком мало кармы для этого")].
Proof.
  apply (C3_sub_zero_karma Demo.env (Demo.message 7 1001 "-")
           (Karma.mk Demo.tg_bob (-1)) Demo.alice Demo.chat ∅ Demo.bob).
  - vm_compute. right. left. reflexivity.
  - reflexivity.
Defined.

(** ** The rate limiter *)

Lemma deliver_buckets (E : Env) (handler : M E retval) (b : Bot E) :
  buckets (fst (deliver handler b)) = buckets b.
Proof. unfold deliver. now destruct (handler (karma b)). Qed.

Lemma is_not_throttled_after (last_calls : gmap (Z * str) Z) (k : Z * str)
    (rate last_call now : Z) :
  is_not_throttled (<[k := last_call]> last_calls) k rate now
  = negb (now - last_call <? rate).
Proof. unfold is_not_throttled. now rewrite lookup_insert_eq. Qed.

Lemma is_not_throttled_other (last_calls : gmap (Z * str) Z) (k k' : Z * str)
    (rate last_call now : Z) :
  k <> k' ->
  is_not_throttled (<[k := last_call]> last_calls) k' rate now
  = is_not_throttled last_calls k' rate now.
Proof. intros H. unfold is_not_throttled. now rewrite lookup_insert_ne. Qed.

(** C4: of two karma changes by the same actor, the first one at a time at
    which the limiter lets it pass, the second one less than 30 seconds
    later is suppressed: the bot sends the reply that the actor changes karma
    too often and does nothing else, so the karma store is unchanged and
    nothing is written to the audit log.  When the second one comes 30
    seconds later or more, both run the handler. *)
Theorem C4_karma_throttle (E : Env) (b : Bot E) (t1 t2 : Z)
    (m1 m2 : Message.t) (k1 k2 : Karma.t) (u1 u2 : User.t) (c1 c2 : Chat.t) :
  Message.from_user m1 = Message.from_user m2 ->
  is_not_throttled (buckets b) (Message.from_user m1, py "karma_change") 30 t1
  = true ->
  let first := karma_change_handler t1 (m1, k1, u1, c1) b in
  let second := karma_change_handler t2 (m2, k2, u2, c2) (fst first) in
  let reply :=
    EvReply (Message.message_id m2) (py "Вы слишком часто меняете карму") in
  first
  = deliver (body (karma_change m1 k1 u1 c1))
      (mkBot (<[(Message.from_user m1, py "karma_change") := t1]> (buckets b))
         (karma b) (history b))
  /\ (t1 <= t2 < t1 + 30 ->
      karma (fst second) = karma (fst first)
      /\ history (fst second) = history (fst first) ++ [reply]
      /\ snd second
         = Return (RMessage (py "Вы слишком часто меняете карму")))
  /\ (t1 + 30 <= t2 ->
      second
      = deliver (body (karma_change m2 k2 u2 c2))
          (mkBot
             (<[(Message.from_user m2, py "karma_change") := t2]>
                (buckets (fst first)))
             (karma (fst first)) (history (fst first)))).
Proof.
  intros Hactor Hpass first second reply.
  assert (Hfirst :
    first
    = deliver (body (karma_change m1 k1 u1 c1))
        (mkBot (<[(Message.from_user m1, py "karma_change") := t1]> (buckets b))
           (karma b) (history b))).
  { unfold first, karma_change_handler, throttled. now rewrite Hpass. }
  assert (Hgate : forall now,
    is_not_throttled (buckets (fst first))
      (Message.from_user m2, py "karma_change") 30 now
    = negb (now - t1 <? 30)).
  { intros now. rewrite Hfirst, deliver_buckets. cbn [buckets].
    rewrite <- Hactor. apply is_not_throttled_after. }
  split; [exact Hfirst|]. split.
  - intros Hwin. unfold second, karma_change_handler, throttled.
    rewrite Hgate.
    replace (t2 - t1 <? 30) with true by (symmetry; apply Z.ltb_lt; lia).
    cbn [negb]. unfold deliver, to_fast_change_karma. run.
    repeat split; reflexivity.
  - intros Hlate. unfold second, karma_change_handler, throttled.
    rewrite Hgate.
    replace (t2 - t1 <? 30) with false by (symmetry; apply Z.ltb_ge; lia).
    reflexivity.
Qed.

Lemma C4_karma_throttle_witness :
  let first :=
    karma_change_handler (E:=Demo.env) 100
      (Demo.message 7 1001 "+", Karma.mk Demo.tg_bob 1, Demo.alice, Demo.chat)
      Demo.start in
  let second :=
    karma_change_handler (E:=Demo.env) 110
      (Demo.message 8 1001 "+", Karma.mk Demo.tg_bob 1, Demo.alice, Demo.chat)
      (fst first) in
  karma (fst second) = karma (fst first)
  /\ history (fst second)
     = history (fst first)
       ++ [EvReply 8 (py "Вы слишком часто меняете карму")]
  /\ snd second = Return (RMessage (py "Вы слишком часто меняете карму")).
Proof.
  apply (C4_karma_throttle Demo.env Demo.start 100 110
           (Demo.message 7 1001 "+") (Demo.message 8 1001 "+")
           (Karma.mk Demo.tg_bob 1) (Karma.mk Demo.tg_bob 1)
           Demo.alice Demo.alice Demo.chat Demo.chat).
  - reflexivity.
  - reflexivity.
  - lia.
Defined.

(** C8 fails as it is stated: a second warning by the same moderator one
    second after the first is carried out like the first: were the warnings under the window of 5
    seconds, it would add nothing to what the bot has done. *)
Lemma C8_warn_not_throttled :
  ~ (forall (E : Env) (b : Bot E) (t1 t2 : Z) (a1 a2 : moderator_args),
       Message.from_user (fst (fst (fst a1)))
       = Message.from_user (fst (fst (fst a2))) ->
       t1 <= t2 < t1 + 5 ->
       history (fst (cmd_warn_handler t2 a2 (fst (cmd_warn_handler t1 a1 b))))
       = history (fst (cmd_warn_handler t1 a1 b))).
Proof.
  intros H.
  specialize (H Demo.env Demo.start 100 101
                (Demo.message 7 1001 "!warn one", Demo.chat, Demo.alice,
                 Demo.tg_bob)
                (Demo.message 8 1001 "!warn two", Demo.chat, Demo.alice,
                 Demo.tg_bob)
                eq_refl ltac:(lia)).
  apply (f_equal (@length event)) in H. vm_compute in H. discriminate H.
Qed.

(** C8, as amended: the window of 5 seconds is the one of the report action
    only.  Of two reports by the same actor, the first one at a time at
    which the limiter lets it pass, the second one less than 5 seconds later
    is suppressed, without any reply, and 5 seconds later or more it runs.
    The window does not depend on the karma throttle, nor the karma throttle
    on it: a karma change leaves the limiter's answer for reports as it was,
    and a report the answer for karma changes.  Mutes, bans and warnings are
    under no window: they run whatever the limiter holds and leave what it
    holds as it is. *)
Theorem C8_report_throttle (E : Env) (b : Bot E) (t1 t2 : Z)
    (m1 m2 : Message.t) :
  Message.from_user m1 = Message.from_user m2 ->
  is_not_throttled (buckets b) (Message.from_user m1, py "report") 5 t1
  = true ->
  let first := report_handler t1 m1 b in
  let second := report_handler t2 m2 (fst first) in
  (first
   = deliver (body (report m1))
       (mkBot (<[(Message.from_user m1, py "report") := t1]> (buckets b))
          (karma b) (history b))
   /\ (t1 <= t2 < t1 + 5 ->
       karma (fst second) = karma (fst first)
       /\ history (fst second) = history (fst first)
       /\ snd second = Return RNone)
   /\ (t1 + 5 <= t2 ->
       second
       = deliver (body (report m2))
           (mkBot
              (<[(Message.from_user m2, py "report") := t2]>
                 (buckets (fst first)))
              (karma (fst first)) (history (fst first)))))
  /\ (forall now args actor rate at_time,
        is_not_throttled (buckets (fst (karma_change_handler now args b)))
          (actor, py "report") rate at_time
        = is_not_throttled (buckets b) (actor, py "report") rate at_time)
  /\ (forall now message actor rate at_time,
        is_not_throttled (buckets (fst (report_handler now message b)))
          (actor, py "karma_change") rate at_time
        = is_not_throttled (buckets b) (actor, py "karma_change") rate at_time)
  /\ (forall now message chat user target,
        cmd_ro_handler now (message, chat, user, target) b
        = deliver (body (cmd_ro message chat user target)) b
        /\ cmd_ban_handler now (message, chat, user, target) b
           = deliver (body (cmd_ban message chat user target)) b
        /\ cmd_warn_handler now (message, chat, user, target) b
           = deliver (body (cmd_warn message chat target user)) b
        /\ buckets (fst (cmd_ro_handler now (message, chat, user, target) b))
           = buckets b
        /\ buckets (fst (cmd_ban_handler now (message, chat, user, target) b))
           = buckets b
        /\ buckets (fst (cmd_warn_handler now (message, chat, user, target) b))
           = buckets b).
Proof.
  intros Hactor Hpass first second.
  assert (Hfirst :
    first
    = deliver (body (report m1))
        (mkBot (<[(Message.from_user m1, py "report") := t1]> (buckets b))
           (karma b) (history b))).
  { unfold first, report_handler, throttled. now rewrite Hpass. }
  assert (Hgate : forall now,
    is_not_throttled (buckets (fst first)) (Message.from_user m2, py "report")
      5 now
    = negb (now - t1 <? 5)).
  { intros now. rewrite Hfirst, deliver_buckets. cbn [buckets].
    rewrite <- Hactor. apply is_not_throttled_after. }
  assert (Hkeys : forall x y : Z,
    (x, py "karma_change") <> (y, py "report")) by (intros x y H; discriminate H).
  assert (Hkeys' : forall x y : Z,
    (x, py "report") <> (y, py "karma_change")) by (intros x y H; discriminate H).
  split; [split; [exact Hfirst|split]|split; [|split]].
  - intros Hwin. unfold second, report_handler, throttled. rewrite Hgate.
    replace (t2 - t1 <? 5) with true by (symmetry; apply Z.ltb_lt; lia).
    cbn. repeat split; reflexivity.
  - intros Hlate. unfold second, report_handler, throttled. rewrite Hgate.
    replace (t2 - t1 <? 5) with false by (symmetry; apply Z.ltb_ge; lia).
    reflexivity.
  - intros now [[[message karma] user] chat] actor rate at_time.
    unfold karma_change_handler, throttled.
    destruct (is_not_throttled (buckets b) _ 30 now);
      rewrite deliver_buckets; cbn [buckets];
      now apply is_not_throttled_other.
  - intros now message actor rate at_time.
    unfold report_handler, throttled.
    destruct (is_not_throttled (buckets b) _ 5 now);
      [rewrite deliver_buckets|]; cbn [buckets fst];
      now apply is_not_throttled_other.
  - intros now message chat user target.
    unfold cmd_ro_handler, cmd_ban_handler, cmd_warn_handler.
    rewrite !deliver_buckets. repeat split; reflexivity.
Qed.

Lemma C8_report_throttle_witness :
  let first := report_handler (E:=Demo.env) 100 (Demo.message 7 1001 "/report")
                 Demo.start in
  let second := report_handler (E:=Demo.env) 103
                  (Demo.message 8 1001 "/report") (fst first) in
  karma (fst second) = karma (fst first)
  /\ history (fst second) = history (fst first)
  /\ snd second = Return RNone.
Proof.
  apply (C8_report_throttle Demo.env Demo.start 100 103
           (Demo.message 7 1001 "/report") (Demo.message 8 1001 "/report")).
  - reflexivity.
  - reflexivity.
  - lia.
Defined.

(** ** Log shipping *)

(** C10: [split_text_file] on a file that exists returns its parts and
    leaves the file with the empty text, every other file as it was; a
    second call then finds nothing to read and returns the heading alone, so
    what the first call has read is never read again. *)
Theorem C10_split_text_file_truncates (E : Env) (fs : gmap str str)
    (file_name content : str) :
  fs !! file_name = Some content ->
  exists rez,
    SendTextFile.split_text_file E fs file_name
    = (<[file_name := []]> fs, inl rez)
    /\ fst (SendTextFile.split_text_file E fs file_name) !! file_name = Some []
    /\ (forall other, other <> file_name ->
          fst (SendTextFile.split_text_file E fs file_name) !! other
          = fs !! other)
    /\ SendTextFile.split_text_file E (<[file_name := []]> fs) file_name
       = (<[file_name := []]> fs, inl [hbold E file_name ++ py ":" ++ [10%N]]).
Proof.
  intros Hfile. unfold SendTextFile.split_text_file. rewrite Hfile.
  destruct (fold_left (SendTextFile.add_line E)
              (SendTextFile.readlines content)
              (hbold E file_name ++ py ":" ++ [10%N], []))
    as [buffer_lines rez].
  eexists. split; [reflexivity|]. cbn [fst]. split; [|split].
  - apply lookup_insert_eq.
  - intros other Hother. now apply lookup_insert_ne.
  - rewrite lookup_insert_eq. cbn [SendTextFile.readlines
      SendTextFile.translate_newlines SendTextFile.lines_from fold_left].
    rewrite insert_insert_eq.
    replace (SendTextFile.len (hbold E file_name ++ py ":" ++ [10%N]) >? 0)
      with true; [reflexivity|].
    symmetry. apply Z.gtb_lt. unfold SendTextFile.len.
    rewrite !length_app. cbn [length]. lia.
Qed.

Lemma C10_split_text_file_truncates_witness :
  exists rez,
    SendTextFile.split_text_file Demo.env
      {[ py "bot.log" := py "started" ]} (py "bot.log")
    = (<[py "bot.log" := []]> {[ py "bot.log" := py "started" ]}, inl rez)
    /\ fst (SendTextFile.split_text_file Demo.env
              {[ py "bot.log" := py "started" ]} (py "bot.log"))
       !! py "bot.log" = Some []
    /\ (forall other, other <> py "bot.log" ->
          fst (SendTextFile.split_text_file Demo.env
                 {[ py "bot.log" := py "started" ]} (py "bot.log")) !! other
          = ({[ py "bot.log" := py "started" ]} : gmap str str) !! other)
    /\ SendTextFile.split_text_file Demo.env
         (<[py "bot.log" := []]> {[ py "bot.log" := py "started" ]})
         (py "bot.log")
       = (<[py "bot.log" := []]> {[ py "bot.log" := py "started" ]},
          inl [hbold Demo.env (py "bot.log") ++ py ":" ++ [10%N]]).
Proof.
  apply (C10_split_text_file_truncates Demo.env
           {[ py "bot.log" := py "started" ]} (py "bot.log") (py "started")).
  reflexivity.
Defined.

(** * Further properties *)

(** ** Splitting a command *)

Arguments Text.isspace : simpl never.

Lemma lstrip_blank (ws s : str) :
  is_blank ws = true -> Text.lstrip (ws ++ s) = Text.lstrip s.
Proof.
  induction ws as [|c ws IH]; cbn; [reflexivity|].
  intros H. apply andb_prop in H as [Hc Hws]. rewrite Hc. now apply IH.
Qed.

Lemma lstrip_word_start (s : str) :
  starts_with_word s = true -> Text.lstrip s = s.
Proof.
  destruct s as [|c s]; cbn; [discriminate|].
  intros H. apply negb_true_iff in H. now rewrite H.
Qed.

Lemma lstrip_nil_iff (s : str) : Text.lstrip s = [] <-> is_blank s = true.
Proof.
  induction s as [|c s IH]; cbn; [tauto|].
  destruct (Text.isspace c); cbn; [exact IH|].
  split; discriminate.
Qed.

Lemma lstrip_starts_with_word (s : str) :
  Text.lstrip s = [] \/ starts_with_word (Text.lstrip s) = true.
Proof.
  induction s as [|c s IH]; cbn; [now left|].
  destruct (Text.isspace c) eqn:Hc; [exact IH|].
  right. cbn. now rewrite Hc.
Qed.

Lemma span_word_word (w t : str) :
  forallb (fun c => negb (Text.isspace c)) w = true ->
  starts_with_word t = false ->
  Text.span_word (w ++ t) = (w, t).
Proof.
  intros Hw Ht. induction w as [|c w IH]; cbn in *.
  - destruct t as [|c t]; [reflexivity|]. cbn in Ht |- *.
    apply negb_false_iff in Ht. now rewrite Ht.
  - apply andb_prop in Hw as [Hc Hw]. apply negb_true_iff in Hc.
    rewrite Hc, (IH Hw). reflexivity.
Qed.

Lemma span_word_spec (s w t : str) :
  Text.span_word s = (w, t) ->
  s = w ++ t
  /\ forallb (fun c => negb (Text.isspace c)) w = true
  /\ starts_with_word t = false.
Proof.
  revert w t. induction s as [|c s IH]; cbn; intros w t H.
  - injection H as <- <-. repeat split; reflexivity.
  - destruct (Text.isspace c) eqn:Hc.
    + injection H as <- <-. cbn. rewrite Hc. repeat split; reflexivity.
    + destruct (Text.span_word s) as [w' t'] eqn:Hs.
      injection H as <- <-. destruct (IH w' t' eq_refl) as (-> & Hw & Ht).
      cbn. rewrite Hc. cbn. repeat split; assumption.
Qed.

Lemma blank_not_word_start (ws s : str) :
  ws <> [] -> is_blank ws = true -> starts_with_word (ws ++ s) = false.
Proof.
  destruct ws as [|c ws]; [contradiction|]. cbn. intros _ H.
  apply andb_prop in H as [Hc _]. now rewrite Hc.
Qed.

Lemma is_word_spec (w : str) :
  is_word w = true ->
  w <> [] /\ forallb (fun c => negb (Text.isspace c)) w = true
  /\ starts_with_word w = true.
Proof.
  destruct w as [|c w]; cbn; [discriminate|]. intros H.
  repeat split; [discriminate|exact H|]. now apply andb_prop in H as [Hc _].
Qed.

Lemma is_gap_spec (ws : str) :
  is_gap ws = true -> ws <> [] /\ is_blank ws = true.
Proof.
  destruct ws as [|c ws]; cbn; [discriminate|]. intros H.
  split; [discriminate|exact H].
Qed.

Lemma span_word_then_gap (w ws s : str) :
  is_word w = true -> is_gap ws = true ->
  Text.span_word (w ++ ws ++ s) = (w, ws ++ s).
Proof.
  intros Hw Hws. apply is_word_spec in Hw as (_ & Hw & _).
  apply is_gap_spec in Hws as [Hne Hws].
  apply span_word_word; [exact Hw|]. now apply blank_not_word_start.
Qed.

Lemma span_word_then_blank (w ws : str) :
  is_word w = true -> is_blank ws = true ->
  Text.span_word (w ++ ws) = (w, ws).
Proof.
  intros Hw Hws. apply is_word_spec in Hw as (_ & Hw & _).
  apply span_word_word; [exact Hw|].
  destruct ws as [|c ws]; [reflexivity|]. cbn in *.
  apply andb_prop in Hws as [Hc _]. now rewrite Hc.
Qed.

Lemma lstrip_gap_word (ws w s : str) :
  is_blank ws = true -> is_word w = true ->
  Text.lstrip (ws ++ w ++ s) = w ++ s.
Proof.
  intros Hws Hw. rewrite lstrip_blank by exact Hws.
  apply lstrip_word_start. apply is_word_spec in Hw as (Hne & _ & Hs).
  destruct w; [contradiction|exact Hs].
Qed.

(** X1: [get_moderator_message_args] fails only with [ValueError], and it
    does so exactly on the texts that hold nothing but white space. *)
Theorem X1_message_args_error (text : str) (e : exn) :
  get_moderator_message_args text = inr e
  <-> e = ValueError /\ is_blank text = true.
Proof.
  unfold get_moderator_message_args. cbn [Text.split].
  destruct (Text.lstrip text) as [|c r] eqn:Hl.
  - apply lstrip_nil_iff in Hl. split.
    + intros H. injection H as <-. now split.
    + now intros [-> _].
  - assert (Hnb : is_blank text <> true).
    { intros H. apply lstrip_nil_iff in H. congruence. }
    destruct (Text.span_word (c :: r)) as [w t].
    destruct (Text.lstrip t) as [|c' r']; [|destruct (Text.span_word (c' :: r'))
      as [w' t']; destruct (Text.lstrip t')]; cbn;
      (split; [discriminate|intros [_ H]; contradiction]).
Qed.

(** X2: what [get_moderator_message_args] returns as the duration text is
    empty or a word without white space, the comment is empty or starts with
    a character that is no white space, and there is no comment without a
    duration text. *)
Theorem X2_message_args_shape (text duration_text comment : str) :
  get_moderator_message_args text = inl (duration_text, comment) ->
  (duration_text = [] \/ is_word duration_text = true)
  /\ (comment = [] \/ starts_with_word comment = true)
  /\ (duration_text = [] -> comment = []).
Proof.
  unfold get_moderator_message_args. cbn [Text.split].
  destruct (Text.lstrip text) as [|c r]; [discriminate|].
  destruct (Text.span_word (c :: r)) as [w t].
  pose proof (lstrip_starts_with_word t) as Ht.
  destruct (Text.lstrip t) as [|c' r'] eqn:Hl.
  - intros H. injection H as <- <-. repeat split; auto.
  - destruct Ht as [Ht|Ht]; [discriminate|].
    destruct (Text.span_word (c' :: r')) as [w' t'] eqn:Hs.
    assert (Hw' : is_word w' = true).
    { pose proof (span_word_spec _ _ _ Hs) as (_ & Hw & _).
      cbn in Ht. apply negb_true_iff in Ht.
      cbn [Text.span_word] in Hs. rewrite Ht in Hs.
      destruct (Text.span_word r'). injection Hs as <- <-. exact Hw. }
    pose proof (lstrip_starts_with_word t') as Ht'.
    destruct (Text.lstrip t') as [|c'' r''] eqn:Hl'.
    + intros H. injection H as <- <-. repeat split; auto.
    + destruct Ht' as [Ht'|Ht']; [discriminate|].
      cbn. intros H. injection H as <- <-.
      repeat split; auto. intros ->. discriminate.
Qed.

Lemma X2_message_args_shape_witness :
  (py "30m" = [] \/ is_word (py "30m") = true)
  /\ (py "too much  spam " = []
      \/ starts_with_word (py "too much  spam ") = true)
  /\ (py "30m" = [] -> py "too much  spam " = []).
Proof.
  apply (X2_message_args_shape (py "!ro  30m   too much  spam ")).
  reflexivity.
Defined.

(** X3: a command word, a duration word and a comment, put together with
    white space between them and any white space before, are taken apart
    again: the duration text is the duration word and the comment is the
    comment as it was written, with the white space inside it and after
    it. *)
Theorem X3_message_args_round_trip (pre cmd gap1 duration_text gap2 comment : str) :
  is_blank pre = true -> is_word cmd = true -> is_gap gap1 = true ->
  is_word duration_text = true -> is_gap gap2 = true ->
  starts_with_word comment = true ->
  get_moderator_message_args
    (pre ++ cmd ++ gap1 ++ duration_text ++ gap2 ++ comment)
  = inl (duration_text, comment).
Proof.
  intros Hpre Hcmd Hg1 Hd Hg2 Hc.
  unfold get_moderator_message_args. cbn [Text.split].
  rewrite (lstrip_gap_word pre cmd) by assumption.
  pose proof (is_word_spec cmd Hcmd) as (Hne & _ & _).
  destruct (cmd ++ gap1 ++ duration_text ++ gap2 ++ comment) as [|x rest] eqn:Heq.
  { destruct cmd; [contradiction|discriminate]. }
  rewrite <- Heq. rewrite span_word_then_gap by assumption.
  apply is_gap_spec in Hg1 as [_ Hg1].
  rewrite (lstrip_gap_word gap1 duration_text) by assumption.
  pose proof (is_word_spec duration_text Hd) as (Hne' & _ & _).
  destruct (duration_text ++ gap2 ++ comment) as [|y rest'] eqn:Heq'.
  { destruct duration_text; [contradiction|discriminate]. }
  rewrite <- Heq'. rewrite span_word_then_gap by assumption.
  apply is_gap_spec in Hg2 as [_ Hg2].
  rewrite lstrip_blank by assumption.
  rewrite lstrip_word_start by assumption.
  destruct comment as [|z comment']; [discriminate|]. reflexivity.
Qed.

Lemma X3_message_args_round_trip_witness :
  get_moderator_message_args
    (py " " ++ py "!ro" ++ py "  " ++ py "30m" ++ py " " ++ py "too much  spam ")
  = inl (py "30m", py "too much  spam ").
Proof.
  apply X3_message_args_round_trip; reflexivity.
Defined.

(** ** Mutes, bans and warnings, further *)

Lemma message_args_single_word (pre cmd post : str) :
  is_blank pre = true -> is_word cmd = true -> is_blank post = true ->
  get_moderator_message_args (pre ++ cmd ++ post) = inl ([], []).
Proof.
  intros Hpre Hcmd Hpost.
  unfold get_moderator_message_args. cbn [Text.split].
  rewrite (lstrip_gap_word pre cmd) by assumption.
  pose proof (is_word_spec cmd Hcmd) as (Hne & _ & _).
  destruct (cmd ++ post) as [|x rest] eqn:Heq.
  { destruct cmd; [contradiction|discriminate]. }
  rewrite <- Heq. rewrite span_word_then_blank by assumption.
  apply lstrip_nil_iff in Hpost. now rewrite Hpost.
Qed.

(** Case analysis on what the collaborators answer, one answer at a time. *)
Ltac answers :=
  repeat (cbn;
          match goal with
          | |- context [match ?x with _ => _ end] =>
              lazymatch x with
              | context [match _ with _ => _ end] => fail
              | _ => destruct x eqn:?
              end
          end);
  cbn.

(** X4: a mute or a ban whose text is the command word alone lasts
    [DEFAULT_DURATION], one hour, whatever the duration parser would answer:
    the platform is asked for one hour, the audit record holds one hour and
    an empty comment, and the reply of the ban has the clause on the
    return. *)
Theorem X4_default_duration (E : Env) (message : Message.t) (chat : Chat.t)
    (user : User.t) (target : TgUser.t) (s : KarmaStore E)
    (pre cmd post : str) (target_user : User.t) :
  Message.text message = pre ++ cmd ++ post ->
  is_blank pre = true -> is_word cmd = true -> is_blank post = true ->
  get_db_user_by_tg_user E target = inl target_user ->
  DEFAULT_DURATION = 3600 * 1000000
  /\ get_duration (E:=E) (Message.text message) = inl (DEFAULT_DURATION, [])
  /\ (chat_restrict E (Message.chat message) (User.tg_id target_user)
        DEFAULT_DURATION = None ->
      save_new_action E
        (ModeratorAction.mk user target_user chat (py "ro")
           (Some DEFAULT_DURATION) []) = None ->
      events (cmd_ro message chat user target s)
      = [EvGetDbUserByTgUser target;
         EvRestrict (Message.chat message) (User.tg_id target_user) false
           DEFAULT_DURATION;
         EvLogInfo (py "User {user} restricted by {admin} for {duration}")
           [LInt (User.tg_id target_user); LInt (User.tg_id user);
            LDuration DEFAULT_DURATION];
         EvSaveNewAction
           (ModeratorAction.mk user target_user chat (py "ro")
              (Some DEFAULT_DURATION) []);
         EvReply (Message.message_id message)
           (py "Пользователь " ++ User.mention_link target_user
            ++ py " сможет <b>только читать</b> сообщения на протяжении "
            ++ format_timedelta E DEFAULT_DURATION)])
  /\ (chat_kick E (Message.chat message) (User.tg_id target_user)
        DEFAULT_DURATION = None ->
      save_new_action E
        (ModeratorAction.mk user target_user chat (py "ban")
           (Some DEFAULT_DURATION) []) = None ->
      events (cmd_ban message chat user target s)
      = [EvGetDbUserByTgUser target;
         EvKick (Message.chat message) (User.tg_id target_user)
           DEFAULT_DURATION;
         EvLogInfo (py "User {user} kicked by {admin} for {duration}")
           [LInt (User.tg_id target_user); LInt (User.tg_id user);
            LDuration DEFAULT_DURATION];
         EvSaveNewAction
           (ModeratorAction.mk user target_user chat (py "ban")
              (Some DEFAULT_DURATION) []);
         EvReply (Message.message_id message)
           ((py "Пользователь " ++ User.mention_link target_user
             ++ py " попал в бан этого чата.")
            ++ py " Он сможет вернуться через "
            ++ format_timedelta E DEFAULT_DURATION)]).
Proof.
  intros Htext Hpre Hcmd Hpost Ht.
  assert (Hd : get_duration (E:=E) (Message.text message)
               = inl (DEFAULT_DURATION, [])).
  { unfold get_duration. rewrite Htext.
    now rewrite message_args_single_word by assumption. }
  split; [reflexivity|]. split; [exact Hd|]. split.
  - intros Hr Hs. unfold cmd_ro. run. rewrite Hd. cbn. rewrite Ht. cbn.
    rewrite Hr. cbn. rewrite Hs. reflexivity.
  - intros Hk Hs. unfold cmd_ban. run. rewrite Hd. cbn. rewrite Ht. cbn.
    rewrite Hk. cbn. rewrite Hs. reflexivity.
Qed.

Lemma X4_default_duration_witness :
  events (cmd_ban (E:=Demo.env) (Demo.message 7 1001 "!ban ") Demo.chat
            Demo.alice Demo.tg_bob ∅)
  = [EvGetDbUserByTgUser Demo.tg_bob;
     EvKick (-100) 1002 DEFAULT_DURATION;
     EvLogInfo (py "User {user} kicked by {admin} for {duration}")
       [LInt 1002; LInt 1001; LDuration DEFAULT_DURATION];
     EvSaveNewAction
       (ModeratorAction.mk Demo.alice Demo.bob Demo.chat (py "ban")
          (Some DEFAULT_DURATION) []);
     EvReply 7
       ((py "Пользователь " ++ py "@bob" ++ py " попал в бан этого чата.")
        ++ py " Он сможет вернуться через "
        ++ format_timedelta Demo.env DEFAULT_DURATION)].
Proof.
  apply (X4_default_duration Demo.env (Demo.message 7 1001 "!ban ") Demo.chat
           Demo.alice Demo.tg_bob ∅ [] (py "!ban") (py " ") Demo.bob);
    reflexivity.
Defined.

(** X5: a mute that the platform accepts and the audit log records: the
    target is resolved, the platform is asked to restrict the target in the
    chat of the message, without the right to send messages, for the parsed
    duration, the audit record of kind ro holds the moderator, the target,
    the chat, that duration and the comment, and the one reply names the
    target and the formatted duration.  The handler returns [None]. *)
Theorem X5_mute_success (E : Env) (message : Message.t) (chat : Chat.t)
    (user : User.t) (target : TgUser.t) (s : KarmaStore E)
    (duration : timedelta) (comment : str) (target_user : User.t) :
  get_duration (E:=E) (Message.text message) = inl (duration, comment) ->
  get_db_user_by_tg_user E target = inl target_user ->
  chat_restrict E (Message.chat message) (User.tg_id target_user) duration
  = None ->
  save_new_action E
    (ModeratorAction.mk user target_user chat (py "ro") (Some duration) comment)
  = None ->
  body (cmd_ro message chat user target) s
  = mkRun s
      [EvGetDbUserByTgUser target;
       EvRestrict (Message.chat message) (User.tg_id target_user) false
         duration;
       EvLogInfo (py "User {user} restricted by {admin} for {duration}")
         [LInt (User.tg_id target_user); LInt (User.tg_id user);
          LDuration duration];
       EvSaveNewAction
         (ModeratorAction.mk user target_user chat (py "ro") (Some duration)
            comment);
       EvReply (Message.message_id message)
         (py "Пользователь " ++ User.mention_link target_user
          ++ py " сможет <b>только читать</b> сообщения на протяжении "
          ++ format_timedelta E duration)]
      (Return RNone).
Proof.
  intros Hd Ht Hr Hs. unfold cmd_ro. run. rewrite Hd. cbn. rewrite Ht. cbn.
  rewrite Hr. cbn. rewrite Hs. reflexivity.
Qed.

Lemma X5_mute_success_witness :
  body (cmd_ro (E:=Demo.env) (Demo.message 7 1001 "!ro 30m spam here")
          Demo.chat Demo.alice Demo.tg_bob) ∅
  = mkRun ∅
      [EvGetDbUserByTgUser Demo.tg_bob;
       EvRestrict (-100) 1002 false (timedelta_hours 1 / 2);
       EvLogInfo (py "User {user} restricted by {admin} for {duration}")
         [LInt 1002; LInt 1001; LDuration (timedelta_hours 1 / 2)];
       EvSaveNewAction
         (ModeratorAction.mk Demo.alice Demo.bob Demo.chat (py "ro")
            (Some (timedelta_hours 1 / 2)) (py "spam here"));
       EvReply 7
         (py "Пользователь " ++ py "@bob"
          ++ py " сможет <b>только читать</b> сообщения на протяжении "
          ++ format_timedelta Demo.env (timedelta_hours 1 / 2))]
      (Return RNone).
Proof.
  apply (X5_mute_success Demo.env (Demo.message 7 1001 "!ro 30m spam here")
           Demo.chat Demo.alice Demo.tg_bob ∅ (timedelta_hours 1 / 2)
           (py "spam here") Demo.bob);
    reflexivity.
Defined.

(** X6: when the audit log refuses the record after the platform has
    accepted the action, the error goes up to the caller and no reply is
    sent; the restriction or the removal has been asked of the platform all
    the same, and nothing takes it back.  A warning whose record is refused
    sends no reply either. *)
Theorem X6_audit_failure (E : Env) (message : Message.t) (chat : Chat.t)
    (user : User.t) (target : TgUser.t) (s : KarmaStore E)
    (target_user : User.t) (e : exn) :
  get_db_user_by_tg_user E target = inl target_user ->
  (forall duration comment,
     get_duration (E:=E) (Message.text message) = inl (duration, comment) ->
     chat_restrict E (Message.chat message) (User.tg_id target_user) duration
     = None ->
     save_new_action E
       (ModeratorAction.mk user target_user chat (py "ro") (Some duration)
          comment) = Some e ->
     let r := cmd_ro message chat user target s in
     out r = Raise e
     /\ existsb is_reply (events r) = false
     /\ List.filter is_platform_call (events r)
        = [EvRestrict (Message.chat message) (User.tg_id target_user) false
             duration])
  /\ (forall duration comment,
        get_duration (E:=E) (Message.text message) = inl (duration, comment) ->
        chat_kick E (Message.chat message) (User.tg_id target_user) duration
        = None ->
        save_new_action E
          (ModeratorAction.mk user target_user chat (py "ban") (Some duration)
             comment) = Some e ->
        let r := cmd_ban message chat user target s in
        out r = Raise e
        /\ existsb is_reply (events r) = false
        /\ List.filter is_platform_call (events r)
           = [EvKick (Message.chat message) (User.tg_id target_user)
                duration])
  /\ (forall comment,
        warn_comment (Message.text message) = Some comment ->
        save_new_action E
          (ModeratorAction.mk user target_user chat (py "warn") None comment)
        = Some e ->
        let r := cmd_warn message chat target user s in
        out r = Raise e /\ existsb is_reply (events r) = false).
Proof.
  intros Ht. split; [|split].
  - intros duration comment Hd Hr Hs. unfold cmd_ro. run.
    rewrite Hd. cbn. rewrite Ht. cbn. rewrite Hr. cbn. rewrite Hs. cbn.
    repeat split; reflexivity.
  - intros duration comment Hd Hk Hs. unfold cmd_ban. run.
    rewrite Hd. cbn. rewrite Ht. cbn. rewrite Hk. cbn. rewrite Hs. cbn.
    repeat split; reflexivity.
  - intros comment Hc Hs. unfold cmd_warn, warn_comment in *.
    destruct (Text.split 1 (Message.text message)) as [|w [|c rest]];
      try discriminate Hc; injection Hc as <-; run;
      rewrite Ht; cbn; rewrite Hs; cbn; split; reflexivity.
Qed.

Lemma X6_audit_failure_witness :
  let r := cmd_ro (E:=Demo2.refusing_audit)
             (Demo.message 7 1001 "!ro 30m spam") Demo.chat Demo.alice
             Demo.tg_bob ∅ in
  out r = Raise (OtherError (py "OperationalError"))
  /\ existsb is_reply (events r) = false
  /\ List.filter is_platform_call (events r)
     = [EvRestrict (-100) 1002 false (timedelta_hours 1 / 2)].
Proof.
  destruct (X6_audit_failure Demo2.refusing_audit
              (Demo.message 7 1001 "!ro 30m spam") Demo.chat Demo.alice
              Demo.tg_bob ∅ Demo.bob (OtherError (py "OperationalError"))
              eq_refl) as [Hro _].
  apply (Hro (timedelta_hours 1 / 2) (py "spam")); reflexivity.
Defined.

(** X7: when the target of a mute, a ban or a warning cannot be resolved,
    the error goes up to the caller after that one call: nothing is asked of
    the platform, nothing is written to the audit log and no reply is
    sent. *)
Theorem X7_target_unresolved (E : Env) (message : Message.t) (chat : Chat.t)
    (user : User.t) (target : TgUser.t) (s : KarmaStore E) (e : exn) :
  get_db_user_by_tg_user E target = inr e ->
  (forall duration comment,
     get_duration (E:=E) (Message.text message) = inl (duration, comment) ->
     cmd_ro message chat user target s
     = mkRun s [EvGetDbUserByTgUser target] (Raise e)
     /\ cmd_ban message chat user target s
        = mkRun s [EvGetDbUserByTgUser target] (Raise e))
  /\ (forall comment,
        warn_comment (Message.text message) = Some comment ->
        cmd_warn message chat target user s
        = mkRun s [EvGetDbUserByTgUser target] (Raise e)).
Proof.
  intros Ht. split.
  - intros duration comment Hd. unfold cmd_ro, cmd_ban. run.
    rewrite Hd. cbn. rewrite Ht. cbn. split; reflexivity.
  - intros comment Hc. unfold cmd_warn, warn_comment in *.
    destruct (Text.split 1 (Message.text message)) as [|w [|c rest]];
      try discriminate Hc; run; rewrite Ht; reflexivity.
Qed.

Lemma X7_target_unresolved_witness :
  cmd_ro (E:=Demo.env) (Demo.message 7 1001 "!ro 30m spam") Demo.chat
    Demo.alice Demo.tg_alice_by_name ∅
  = mkRun ∅ [EvGetDbUserByTgUser Demo.tg_alice_by_name]
      (Raise (UserWithoutUserIdError None None))
  /\ cmd_ban (E:=Demo.env) (Demo.message 7 1001 "!ro 30m spam") Demo.chat
       Demo.alice Demo.tg_alice_by_name ∅
     = mkRun ∅ [EvGetDbUserByTgUser Demo.tg_alice_by_name]
         (Raise (UserWithoutUserIdError None None)).
Proof.
  destruct (X7_target_unresolved Demo.env
              (Demo.message 7 1001 "!ro 30m spam") Demo.chat Demo.alice
              Demo.tg_alice_by_name ∅ (UserWithoutUserIdError None None)
              eq_refl) as [H _].
  apply (H (timedelta_hours 1 / 2) (py "spam")). reflexivity.
Defined.

(** X8: mutes, bans, warnings and reports never call the karma engine and
    leave the karma store as it is, whatever the collaborators answer; a
    report asks nothing of the platform's restrict and kick and writes
    nothing to the audit log. *)
Theorem X8_moderation_keeps_karma (E : Env) (message : Message.t)
    (chat : Chat.t) (user : User.t) (target : TgUser.t) (s : KarmaStore E) :
  (store (cmd_ro message chat user target s) = s
   /\ existsb is_karma_call (events (cmd_ro message chat user target s))
      = false)
  /\ (store (cmd_ban message chat user target s) = s
      /\ existsb is_karma_call (events (cmd_ban message chat user target s))
         = false)
  /\ (store (cmd_warn message chat target user s) = s
      /\ existsb is_karma_call (events (cmd_warn message chat target user s))
         = false)
  /\ (store (report message s) = s
      /\ existsb is_karma_call (events (report message s)) = false
      /\ existsb is_platform_call (events (report message s)) = false
      /\ existsb is_audit (events (report message s)) = false).
Proof.
  split; [|split; [|split]].
  - unfold cmd_ro. run.
    destruct (get_duration (Message.text message)) as [[d c]|e]; cbn.
    + destruct (get_db_user_by_tg_user E target) as [t|e]; cbn;
        [|split; reflexivity].
      destruct (chat_restrict E (Message.chat message) (User.tg_id t) d)
        as [e|]; cbn.
      * destruct e; cbn; split; reflexivity.
      * destruct (save_new_action E _); cbn; split; reflexivity.
    + destruct e; cbn; split; reflexivity.
  - unfold cmd_ban. run.
    destruct (get_duration (Message.text message)) as [[d c]|e]; cbn.
    + destruct (get_db_user_by_tg_user E target) as [t|e]; cbn;
        [|split; reflexivity].
      destruct (chat_kick E (Message.chat message) (User.tg_id t) d)
        as [e|]; cbn.
      * destruct e; cbn; split; reflexivity.
      * destruct (save_new_action E _); cbn; split; reflexivity.
    + destruct e; cbn; split; reflexivity.
  - unfold cmd_warn.
    destruct (Text.split 1 (Message.text message)) as [|w [|c rest]]; run;
      try (split; reflexivity);
      (destruct (get_db_user_by_tg_user E target) as [t|e]; cbn;
       [|split; reflexivity]);
      destruct (save_new_action E _); cbn; split; reflexivity.
  - unfold report, get_mentions_admins. run.
    destruct (get_administrators E (Message.chat message)); cbn;
      repeat split; reflexivity.
Qed.

(** ** Karma changes, further *)

(** X9: a karma change on a target that carries an id and is not the actor,
    when the engine accepts it: the store is the one the engine returns, and
    the calls are the resolution of the target, the one call of the engine,
    the reply and the log line.  The reply says whether the karma went up or
    down, names the target in bold, gives the new rounded karma in bold and
    the signed power. *)
Theorem X9_karma_change_success (E : Env) (message : Message.t)
    (karma : Karma.t) (user : User.t) (chat : Chat.t) (s s' : KarmaStore E)
    (target_user : User.t) (uk : UserKarma E) (power : Power E) :
  get_or_create_from_tg_user E (Karma.user karma) = inl target_user ->
  User.id target_user <> User.id user ->
  Karma.karma_change karma = 1 \/ Karma.karma_change karma = -1 ->
  change_or_create E s target_user chat user (Karma.karma_change karma)
  = inl (s', uk, power) ->
  karma_change message karma user chat s
  = mkRun s'
      [EvGetOrCreateFromTgUser (Karma.user karma);
       EvChangeOrCreate target_user chat user (Karma.karma_change karma);
       EvReply (Message.message_id message)
         (py "Вы "
          ++ (if Karma.karma_change karma =? 1 then py "увеличили"
              else py "уменьшили")
          ++ py " карму " ++ hbold E (User.fullname target_user)
          ++ py " до " ++ hbold E (karma_round E uk) ++ py " ("
          ++ format_power E power (Karma.karma_change karma) ++ py ")");
       EvLogInfo (py "user {user} change karma of {target_user}")
         [LInt (User.tg_id user); LInt (User.tg_id target_user)]]
      (Next tt).
Proof.
  intros Ht Hid Hk Hc.
  assert (Hcan : can_change_karma target_user user = true).
  { destruct (can_change_karma target_user user) eqn:H; [reflexivity|].
    apply can_change_karma_false_iff in H. contradiction. }
  unfold karma_change. run. rewrite Ht. cbn. rewrite Hcan. cbn.
  rewrite Hc. cbn. unfold how_change.
  destruct Hk as [-> | ->]; reflexivity.
Qed.

Lemma X9_karma_change_success_witness :
  karma_change (E:=Demo.env) (Demo.message 7 1001 "+")
    (Karma.mk Demo.tg_bob 1) Demo.alice Demo.chat ∅
  = mkRun (<[(2, -100) := 1]> ∅)
      [EvGetOrCreateFromTgUser Demo.tg_bob;
       EvChangeOrCreate Demo.bob Demo.chat Demo.alice 1;
       EvReply 7
         (py "Вы " ++ py "увеличили" ++ py " карму "
          ++ hbold Demo.env (py "Bob") ++ py " до "
          ++ hbold Demo.env (py "1") ++ py " (" ++ py "+1.0" ++ py ")");
       EvLogInfo (py "user {user} change karma of {target_user}")
         [LInt 1001; LInt 1002]]
      (Next tt).
Proof.
  apply (X9_karma_change_success Demo.env (Demo.message 7 1001 "+")
           (Karma.mk Demo.tg_bob 1) Demo.alice Demo.chat ∅
           (<[(2, -100) := 1]> ∅) Demo.bob 1 1).
  - reflexivity.
  - discriminate.
  - left. reflexivity.
  - reflexivity.
Defined.

(** X10: when the target carries no id and the lookup by its name fails
    with [UsernameNotOccupied] or [IndexError], the first error is raised
    again, now with the actor's platform id and the chat id on it, and
    nothing else happens; any other failure of the lookup goes up as it
    is. *)
Theorem X10_username_lookup_fails (E : Env) (message : Message.t)
    (karma : Karma.t) (user : User.t) (chat : Chat.t) (s : KarmaStore E)
    (user_id chat_id : option Z) (e : exn) :
  get_or_create_from_tg_user E (Karma.user karma)
  = inr (UserWithoutUserIdError user_id chat_id) ->
  get_user_by_username E (TgUser.username (Karma.user karma)) = inr e ->
  karma_change message karma user chat s
  = mkRun s
      [EvGetOrCreateFromTgUser (Karma.user karma);
       EvGetUserByUsername (TgUser.username (Karma.user karma))]
      (Raise
         (match e with
          | UsernameNotOccupied | IndexError =>
              UserWithoutUserIdError (Some (User.tg_id user))
                (Some (Chat.chat_id chat))
          | _ => e
          end)).
Proof.
  intros Hg Hu. unfold karma_change. run. rewrite Hg. cbn. rewrite Hu. cbn.
  destruct e; reflexivity.
Qed.

Lemma X10_username_lookup_fails_witness :
  karma_change (E:=Demo.env) (Demo.message 7 1001 "+")
    (Karma.mk (TgUser.mk None (Some (py "nobody")) false []) 1)
    Demo.alice Demo.chat ∅
  = mkRun ∅
      [EvGetOrCreateFromTgUser (TgUser.mk None (Some (py "nobody")) false []);
       EvGetUserByUsername (Some (py "nobody"))]
      (Raise (UserWithoutUserIdError (Some 1001) (Some (-100)))).
Proof.
  apply (X10_username_lookup_fails Demo.env (Demo.message 7 1001 "+")
           (Karma.mk (TgUser.mk None (Some (py "nobody")) false []) 1)
           Demo.alice Demo.chat ∅ None None UsernameNotOccupied);
    reflexivity.
Defined.

(** X11: whatever the collaborators answer, a run of [karma_change] calls
    the engine at most once and replies at most once, asks nothing of the
    platform's restrict and kick and writes nothing to the audit log; and
    the karma store after it is the store before it, or the store that the
    engine returned on its one call. *)
Theorem X11_karma_change_at_most_once (E : Env) (message : Message.t)
    (karma : Karma.t) (user : User.t) (chat : Chat.t) (s : KarmaStore E) :
  let r := karma_change message karma user chat s in
  (length (List.filter is_karma_call (events r)) <= 1)%nat
  /\ (length (List.filter is_reply (events r)) <= 1)%nat
  /\ existsb is_platform_call (events r) = false
  /\ existsb is_audit (events r) = false
  /\ (store r = s
      \/ exists target_user uk power,
           change_or_create E s target_user chat user
             (Karma.karma_change karma)
           = inl (store r, uk, power)).
Proof.
  unfold karma_change. run.
  destruct (get_or_create_from_tg_user E (Karma.user karma)) as [t|e]; cbn.
  - destruct (can_change_karma t user); cbn.
    + destruct (change_or_create E s t chat user (Karma.karma_change karma))
        as [[[s' uk] power]|e] eqn:Hc; cbn.
      * destruct (how_change (Karma.karma_change karma)); cbn;
          repeat split; try lia; try reflexivity; right; eauto.
      * destruct e; cbn; repeat split; try lia; try reflexivity; now left.
    + repeat split; try lia; try reflexivity; now left.
  - destruct e; cbn; try (repeat split; try lia; try reflexivity; now left).
    destruct (get_user_by_username E (TgUser.username (Karma.user karma)))
      as [t|e]; cbn.
    + destruct (change_or_create E s t chat user (Karma.karma_change karma))
        as [[[s' uk] power]|e] eqn:Hc; cbn.
      * destruct (how_change (Karma.karma_change karma)); cbn;
          repeat split; try lia; try reflexivity; right; eauto.
      * destruct e; cbn; repeat split; try lia; try reflexivity; now left.
    + destruct e; cbn; repeat split; try lia; try reflexivity; now left.
Qed.

(** X12: the words of the reply are looked up after the engine has been
    called.  For a change that is neither +1 nor -1, when the engine accepts
    it, the karma store is the one the engine returns, and the run ends in
    [KeyError] without any reply. *)
Theorem X12_unknown_change_after_mutation (E : Env) (message : Message.t)
    (karma : Karma.t) (user : User.t) (chat : Chat.t) (s s' : KarmaStore E)
    (target_user : User.t) (uk : UserKarma E) (power : Power E) :
  get_or_create_from_tg_user E (Karma.user karma) = inl target_user ->
  User.id target_user <> User.id user ->
  Karma.karma_change karma <> 1 -> Karma.karma_change karma <> -1 ->
  change_or_create E s target_user chat user (Karma.karma_change karma)
  = inl (s', uk, power) ->
  karma_change message karma user chat s
  = mkRun s'
      [EvGetOrCreateFromTgUser (Karma.user karma);
       EvChangeOrCreate target_user chat user (Karma.karma_change karma)]
      (Raise KeyError).
Proof.
  intros Ht Hid Hk1 Hk2 Hc.
  assert (Hcan : can_change_karma target_user user = true).
  { destruct (can_change_karma target_user user) eqn:H; [reflexivity|].
    apply can_change_karma_false_iff in H. contradiction. }
  unfold karma_change. run. rewrite Ht. cbn. rewrite Hcan. cbn.
  rewrite Hc. cbn. unfold how_change.
  apply Z.eqb_neq in Hk1, Hk2. rewrite Hk1, Hk2. reflexivity.
Qed.

Lemma X12_unknown_change_after_mutation_witness :
  karma_change (E:=Demo.env) (Demo.message 7 1001 "++")
    (Karma.mk Demo.tg_bob 2) Demo.alice Demo.chat ∅
  = mkRun (<[(2, -100) := 2]> ∅)
      [EvGetOrCreateFromTgUser Demo.tg_bob;
       EvChangeOrCreate Demo.bob Demo.chat Demo.alice 2]
      (Raise KeyError).
Proof.
  apply (X12_unknown_change_after_mutation Demo.env (Demo.message 7 1001 "++")
           (Karma.mk Demo.tg_bob 2) Demo.alice Demo.chat ∅
           (<[(2, -100) := 2]> ∅) Demo.bob 2 1).
  - reflexivity.
  - discriminate.
  - discriminate.
  - discriminate.
  - reflexivity.
Defined.

(** ** The parts of a log file *)

Lemma fold_add_line_fit (E : Env) (lines : list str) (b : str) (r : list str) :
  SendTextFile.len b <= SendTextFile.MAX_MESSAGE_SYMBOLS ->
  Forall (fun p => SendTextFile.len p <= SendTextFile.MAX_MESSAGE_SYMBOLS) r ->
  forallb
    (fun line =>
       forallb
         (fun p => SendTextFile.len p <=? SendTextFile.MAX_MESSAGE_SYMBOLS)
         (textwrap_wrap E (quote_html E line)
            SendTextFile.MAX_MESSAGE_SYMBOLS))
    lines = true ->
  SendTextFile.len (fst (fold_left (SendTextFile.add_line E) lines (b, r)))
  <= SendTextFile.MAX_MESSAGE_SYMBOLS
  /\ Forall (fun p => SendTextFile.len p <= SendTextFile.MAX_MESSAGE_SYMBOLS)
       (snd (fold_left (SendTextFile.add_line E) lines (b, r))).
Proof.
  revert b r. induction lines as [|line lines IH]; intros b r Hb Hr Hw.
  - split; assumption.
  - cbn [forallb] in Hw. apply andb_prop in Hw as [Hline Hw].
    cbn [fold_left]. unfold SendTextFile.add_line at 2 4.
    destruct (SendTextFile.len (quote_html E line)
              >? SendTextFile.MAX_MESSAGE_SYMBOLS) eqn:Hlong.
    + apply IH; [unfold SendTextFile.len, SendTextFile.MAX_MESSAGE_SYMBOLS; cbn; lia| |exact Hw].
      apply Forall_app. split.
      * apply Forall_app. split; [exact Hr|]. now constructor.
      * apply Forall_forall. intros p Hp.
        rewrite forallb_forall in Hline. apply Z.leb_le. apply Hline.
        now apply list_elem_of_In.
    + destruct (SendTextFile.len b + SendTextFile.len (quote_html E line)
                >? SendTextFile.MAX_MESSAGE_SYMBOLS) eqn:Hover.
      * apply IH; [unfold SendTextFile.len, SendTextFile.MAX_MESSAGE_SYMBOLS; cbn; lia| |exact Hw].
        apply Forall_app. split; [exact Hr|]. now constructor.
      * apply IH; [|exact Hr|exact Hw].
        unfold SendTextFile.len in *. rewrite length_app.
        destruct (Z.gtb_spec
                    (Z.of_nat (length b)
                     + Z.of_nat (length (quote_html E line)))
                    SendTextFile.MAX_MESSAGE_SYMBOLS); [discriminate|lia].
Qed.

(** X13: when the heading of a file is at most [MAX_MESSAGE_SYMBOLS] long,
    4000 characters, and [textwrap.wrap] cuts the long lines of the file
    into pieces of at most that length, every part that [split_text_file]
    returns is at most 4000 characters long. *)
Theorem X13_parts_fit (E : Env) (fs : gmap str str)
    (file_name content : str) (rez : list str) :
  fs !! file_name = Some content ->
  SendTextFile.len (hbold E file_name ++ py ":" ++ [10%N])
  <= SendTextFile.MAX_MESSAGE_SYMBOLS ->
  forallb
    (fun line =>
       forallb
         (fun p => SendTextFile.len p <=? SendTextFile.MAX_MESSAGE_SYMBOLS)
         (textwrap_wrap E (quote_html E line)
            SendTextFile.MAX_MESSAGE_SYMBOLS))
    (SendTextFile.readlines content) = true ->
  snd (SendTextFile.split_text_file E fs file_name) = inl rez ->
  SendTextFile.MAX_MESSAGE_SYMBOLS = 4000
  /\ Forall (fun part => SendTextFile.len part <= 4000) rez.
Proof.
  intros Hfile Hhead Hwrap.
  pose proof (fold_add_line_fit E (SendTextFile.readlines content)
                (hbold E file_name ++ py ":" ++ [10%N]) [] Hhead
                (List.Forall_nil _) Hwrap) as Hfit.
  unfold SendTextFile.split_text_file. rewrite Hfile.
  destruct (fold_left (SendTextFile.add_line E)
              (SendTextFile.readlines content) _)
    as [buffer_lines parts].
  destruct Hfit as [Hb Hr]. cbn [fst snd] in *.
  intros H. split; [reflexivity|].
  change 4000 with SendTextFile.MAX_MESSAGE_SYMBOLS.
  destruct (SendTextFile.len buffer_lines >? 0); injection H as <-.
  - apply Forall_app. split; [exact Hr|]. now constructor.
  - exact Hr.
Qed.

Lemma X13_parts_fit_witness :
  SendTextFile.MAX_MESSAGE_SYMBOLS = 4000
  /\ Forall (fun part => SendTextFile.len part <= 4000)
       [hbold Demo.env (py "bot.log") ++ py ":" ++ [10%N] ++ py "started"].
Proof.
  apply (X13_parts_fit Demo.env {[ py "bot.log" := py "started" ]}
           (py "bot.log") (py "started"));
    [reflexivity | now vm_compute | reflexivity | reflexivity].
Defined.

Lemma add_line_overflow (E : Env) (b : str) (r : list str) (line : str) :
  SendTextFile.len (quote_html E line) <= SendTextFile.MAX_MESSAGE_SYMBOLS ->
  SendTextFile.MAX_MESSAGE_SYMBOLS
  < SendTextFile.len b + SendTextFile.len (quote_html E line) ->
  SendTextFile.add_line E (b, r) line = ([], r ++ [b]).
Proof.
  intros Hfit Hover. unfold SendTextFile.add_line.
  destruct (Z.gtb_spec (SendTextFile.len (quote_html E line))
              SendTextFile.MAX_MESSAGE_SYMBOLS); [lia|].
  destruct (Z.gtb_spec
              (SendTextFile.len b + SendTextFile.len (quote_html E line))
              SendTextFile.MAX_MESSAGE_SYMBOLS); [reflexivity|lia].
Qed.

(** X14: a line that is not too long for a part on its own, and does not
    fit behind the lines gathered so far, closes the part and is dropped:
    the parts are those of the lines before it, then those of the lines
    after it, gathered from an empty buffer; its own text enters none. *)
Theorem X14_overflow_line_dropped (E : Env) (fs : gmap str str)
    (file_name content : str) (pre post : list str) (line : str)
    (b : str) (r : list str) :
  fs !! file_name = Some content ->
  SendTextFile.readlines content = pre ++ line :: post ->
  fold_left (SendTextFile.add_line E) pre
    (hbold E file_name ++ py ":" ++ [10%N], []) = (b, r) ->
  SendTextFile.len (quote_html E line) <= SendTextFile.MAX_MESSAGE_SYMBOLS ->
  SendTextFile.MAX_MESSAGE_SYMBOLS
  < SendTextFile.len b + SendTextFile.len (quote_html E line) ->
  exists b' r',
    fold_left (SendTextFile.add_line E) post ([], r ++ [b]) = (b', r')
    /\ snd (SendTextFile.split_text_file E fs file_name)
       = inl (if SendTextFile.len b' >? 0 then r' ++ [b'] else r').
Proof.
  intros Hfile Hlines Hpre Hfit Hover.
  unfold SendTextFile.split_text_file. rewrite Hfile, Hlines.
  rewrite fold_left_app, Hpre. cbn [fold_left].
  rewrite (add_line_overflow E b r line Hfit Hover).
  destruct (fold_left (SendTextFile.add_line E) post ([], r ++ [b]))
    as [b' r'].
  exists b', r'. split; reflexivity.
Qed.

Lemma X14_overflow_line_dropped_witness :
  exists b' r',
    fold_left (SendTextFile.add_line Demo.env) [Demo2.tail_line]
      ([], [] ++ [hbold Demo.env (py "bot.log") ++ py ":" ++ [10%N]])
    = (b', r')
    /\ snd (SendTextFile.split_text_file Demo.env
              {[ py "bot.log" := Demo2.crowded_log ]} (py "bot.log"))
       = inl (if SendTextFile.len b' >? 0 then r' ++ [b'] else r').
Proof.
  apply (X14_overflow_line_dropped Demo.env
           {[ py "bot.log" := Demo2.crowded_log ]} (py "bot.log")
           Demo2.crowded_log [] [Demo2.tail_line] (Demo2.line_of 3990)
           (hbold Demo.env (py "bot.log") ++ py ":" ++ [10%N]) []);
    [reflexivity | vm_compute; reflexivity | reflexivity
    | now vm_compute | now vm_compute].
Defined.

Lemma fold_add_line_keeps (E : Env) (lines : list str) (b : str)
    (r : list str) (p : str) :
  In p r -> In p (snd (fold_left (SendTextFile.add_line E) lines (b, r))).
Proof.
  revert b r. induction lines as [|line lines IH]; intros b r Hp.
  - exact Hp.
  - cbn [fold_left]. unfold SendTextFile.add_line at 2.
    destruct (SendTextFile.len (quote_html E line)
              >? SendTextFile.MAX_MESSAGE_SYMBOLS).
    + apply IH. apply in_or_app. left. apply in_or_app. now left.
    + destruct (SendTextFile.len b + SendTextFile.len (quote_html E line)
                >? SendTextFile.MAX_MESSAGE_SYMBOLS).
      * apply IH. apply in_or_app. now left.
      * now apply IH.
Qed.

(** X15: after a line of more than 4000 characters the buffer is empty, and
    a second such line right behind it appends that empty buffer: the parts
    of a file with two long lines in a row hold an empty part. *)
Theorem X15_empty_part (E : Env) (fs : gmap str str)
    (file_name content : str) (pre post : list str) (line1 line2 : str)
    (rez : list str) :
  fs !! file_name = Some content ->
  SendTextFile.readlines content = pre ++ line1 :: line2 :: post ->
  SendTextFile.MAX_MESSAGE_SYMBOLS < SendTextFile.len (quote_html E line1) ->
  SendTextFile.MAX_MESSAGE_SYMBOLS < SendTextFile.len (quote_html E line2) ->
  snd (SendTextFile.split_text_file E fs file_name) = inl rez ->
  In [] rez.
Proof.
  intros Hfile Hlines H1 H2. unfold SendTextFile.split_text_file.
  rewrite Hfile, Hlines. rewrite fold_left_app.
  destruct (fold_left (SendTextFile.add_line E) pre _) as [b r].
  cbn [fold_left]. unfold SendTextFile.add_line at 2 3.
  destruct (Z.gtb_spec (SendTextFile.len (quote_html E line1))
              SendTextFile.MAX_MESSAGE_SYMBOLS); [|lia].
  destruct (Z.gtb_spec (SendTextFile.len (quote_html E line2))
              SendTextFile.MAX_MESSAGE_SYMBOLS); [|lia].
  match goal with
  | |- context [fold_left _ post (?b0, ?r0)] =>
      pose proof (fold_add_line_keeps E post b0 r0 []) as Hkeep
  end.
  destruct (fold_left (SendTextFile.add_line E) post _) as [b' r'].
  cbn [snd] in *. intros Hrez.
  assert (Hin : In [] r').
  { apply Hkeep. apply in_or_app. left. apply in_or_app. right. now left. }
  destruct (SendTextFile.len b' >? 0); injection Hrez as <-; [|exact Hin].
  apply in_or_app. now left.
Qed.

Lemma X15_empty_part_witness :
  In []
    [hbold Demo.env (py "bot.log") ++ py ":" ++ [10%N];
     Demo2.line_of 4001; []; Demo2.line_of 4001].
Proof.
  apply (X15_empty_part Demo.env {[ py "bot.log" := Demo2.long_log ]}
           (py "bot.log") Demo2.long_log [] []
           (Demo2.line_of 4001) (Demo2.line_of 4001));
    [reflexivity | vm_compute; reflexivity | now vm_compute
    | now vm_compute | vm_compute; reflexivity].
Defined.

Lemma fold_add_line_all_fit (E : Env) (lines : list str) (b : str)
    (r : list str) :
  SendTextFile.len b
  + SendTextFile.len (concat (map (quote_html E) lines))
  <= SendTextFile.MAX_MESSAGE_SYMBOLS ->
  fold_left (SendTextFile.add_line E) lines (b, r)
  = (b ++ concat (map (quote_html E) lines), r).
Proof.
  revert b. induction lines as [|line lines IH]; intros b Hfit.
  - cbn. now rewrite app_nil_r.
  - cbn [map concat fold_left] in *. unfold SendTextFile.len in *.
    rewrite length_app in Hfit. unfold SendTextFile.add_line at 2.
    unfold SendTextFile.len.
    destruct (Z.gtb_spec (Z.of_nat (length (quote_html E line)))
                SendTextFile.MAX_MESSAGE_SYMBOLS); [lia|].
    destruct (Z.gtb_spec
                (Z.of_nat (length b)
                 + Z.of_nat (length (quote_html E line)))
                SendTextFile.MAX_MESSAGE_SYMBOLS); [lia|].
    rewrite IH; [now rewrite <- app_assoc|].
    rewrite length_app. lia.
Qed.

(** X16: when the heading and the quoted lines of a file take at most 4000
    characters together, [split_text_file] returns one part: the heading
    followed by the lines, each one quoted, in the order of the file. *)
Theorem X16_small_file_one_part (E : Env) (fs : gmap str str)
    (file_name content : str) :
  fs !! file_name = Some content ->
  SendTextFile.len (hbold E file_name ++ py ":" ++ [10%N])
  + SendTextFile.len
      (concat (map (quote_html E) (SendTextFile.readlines content)))
  <= 4000 ->
  snd (SendTextFile.split_text_file E fs file_name)
  = inl [(hbold E file_name ++ py ":" ++ [10%N])
         ++ concat (map (quote_html E) (SendTextFile.readlines content))].
Proof.
  intros Hfile Hfit. unfold SendTextFile.split_text_file. rewrite Hfile.
  rewrite fold_add_line_all_fit by exact Hfit.
  replace (SendTextFile.len _ >? 0) with true; [reflexivity|].
  symmetry. apply Z.gtb_lt. unfold SendTextFile.len.
  rewrite !length_app. cbn [length]. lia.
Qed.

Lemma X16_small_file_one_part_witness :
  snd (SendTextFile.split_text_file Demo.env
         {[ py "bot.log" := py "started" ]} (py "bot.log"))
  = inl [(hbold Demo.env (py "bot.log") ++ py ":" ++ [10%N])
         ++ concat (map (quote_html Demo.env)
                      (SendTextFile.readlines (py "started")))].
Proof.
  apply (X16_small_file_one_part Demo.env
           {[ py "bot.log" := py "started" ]} (py "bot.log") (py "started"));
    [reflexivity | now vm_compute].
Defined.

(** ** Sending the parts of a log file *)

Ltac io :=
  unfold SendLog.bot_send_message_, SendLog.sleep, SendLog.split_text_file,
    Info.get_db_user_by_tg_user_, Info.get_user_info_, Info.get_karma_,
    Info.message_reply_, Info.message_delete_,
    IO.try_except_finally, IO.suppress, IO.bind, IO.ret, IO.perform,
    IO.of_option in *;
  cbv beta iota in *.

Lemma sent_cons (P : Services) (chat_id : Z) (msg : str)
    (list_msg : list str) :
  sent P chat_id (msg :: list_msg)
  = CallSendMessage chat_id (hpre P msg) (Some true) (Some (py "HTML")) None
      :: CallSleep 3 :: sent P chat_id list_msg.
Proof. reflexivity. Qed.

Lemma send_list_messages_cons (P : Services) (chat_id : Z) (msg : str)
    (list_msg : list str) :
  SendLog.send_list_messages P (msg :: list_msg) chat_id
  = IO.bind
      (SendLog.bot_send_message_ P chat_id (hpre P msg) (Some true)
         (Some (py "HTML")) None)
      (fun _ =>
         IO.bind (SendLog.sleep SendLog.PAUSE_SEC)
           (fun _ => SendLog.send_list_messages P list_msg chat_id)).
Proof. reflexivity. Qed.

Lemma send_list_messages_accepted (P : Services) (chat_id : Z)
    (list_msg : list str) (fs : gmap str str) (cs : list call) :
  (forall pre msg post,
      list_msg = pre ++ msg :: post ->
      bot_send_message P (cs ++ sent P chat_id pre) chat_id (hpre P msg)
      = None) ->
  SendLog.send_list_messages P list_msg chat_id (mkWorld fs cs)
  = (mkWorld fs (cs ++ sent P chat_id list_msg), inl tt).
Proof.
  revert cs. induction list_msg as [|msg rest IH]; intros cs Hok.
  - cbn. now rewrite app_nil_r.
  - pose proof (Hok [] msg rest eq_refl) as H0.
    cbn [sent flat_map] in H0. rewrite app_nil_r in H0.
    rewrite send_list_messages_cons. io. rewrite H0. cbv beta iota.
    unfold SendLog.PAUSE_SEC. rewrite IH.
    + rewrite sent_cons, <- !app_assoc. reflexivity.
    + intros pre m post Heq. rewrite <- !app_assoc. cbn [app].
      rewrite <- sent_cons. apply (Hok (msg :: pre) m post).
      now rewrite Heq.
Qed.

(** X17: when the platform accepts every message, [send_list_messages]
    sends the messages in the order of the list, each one in [hpre],
    without notification and as HTML, to the chat asked for, sleeps three
    seconds after each one, the last one too, and touches no file. *)
Theorem X17_send_list_messages_accepted (P : Services) (chat_id : Z)
    (list_msg : list str) (w : World) :
  (forall pre msg post,
      list_msg = pre ++ msg :: post ->
      bot_send_message P (calls w ++ sent P chat_id pre) chat_id
        (hpre P msg)
      = None) ->
  SendLog.send_list_messages P list_msg chat_id w
  = (mkWorld (files w) (calls w ++ sent P chat_id list_msg), inl tt).
Proof.
  destruct w as [fs cs]. cbn [files calls].
  apply send_list_messages_accepted.
Qed.

(** X18: [send_list_messages] stops at the first message that the platform
    refuses: the messages before it are sent, each with its pause, the
    refused one is tried, its exception is raised, and no message behind it
    is tried. *)
Theorem X18_send_list_messages_refused (P : Services) (chat_id : Z)
    (pre post : list str) (msg : str) (e : exn) (w : World) :
  (forall pre' msg' post',
      pre = pre' ++ msg' :: post' ->
      bot_send_message P (calls w ++ sent P chat_id pre') chat_id
        (hpre P msg')
      = None) ->
  bot_send_message P (calls w ++ sent P chat_id pre) chat_id (hpre P msg)
  = Some e ->
  SendLog.send_list_messages P (pre ++ msg :: post) chat_id w
  = (mkWorld (files w)
       (calls w ++ sent P chat_id pre
        ++ [CallSendMessage chat_id (hpre P msg) (Some true)
              (Some (py "HTML")) None]),
     inr e).
Proof.
  destruct w as [fs cs]. cbn [files calls]. revert cs.
  induction pre as [|m pre IH]; intros cs Hok Hno.
  - cbn [sent flat_map app] in *. rewrite app_nil_r in Hno.
    rewrite send_list_messages_cons. io. now rewrite Hno.
  - pose proof (Hok [] m pre eq_refl) as H0.
    cbn [sent flat_map] in H0. rewrite app_nil_r in H0.
    cbn [app]. rewrite send_list_messages_cons. io. rewrite H0. cbv beta iota.
    unfold SendLog.PAUSE_SEC.
    match goal with
    | |- SendLog.send_list_messages _ _ _ (mkWorld _ ?cs1) = _ =>
        rewrite (IH cs1)
    end.
    + rewrite sent_cons, <- !app_assoc. reflexivity.
    + intros pre' m' post' Heq. rewrite <- !app_assoc. cbn [app].
      rewrite <- sent_cons. apply (Hok (m :: pre') m' post').
      now rewrite Heq.
    + rewrite <- !app_assoc. cbn [app]. rewrite <- sent_cons. exact Hno.
Qed.

Lemma send_list_messages_files (P : Services) (chat_id : Z)
    (list_msg : list str) (w : World) :
  files (fst (SendLog.send_list_messages P list_msg chat_id w)) = files w.
Proof.
  revert w. induction list_msg as [|msg rest IH]; intros [fs cs].
  - reflexivity.
  - rewrite send_list_messages_cons. io.
    destruct (bot_send_message P cs chat_id (hpre P msg)); [reflexivity|].
    now rewrite IH.
Qed.

Lemma split_text_file_existing (E : Env) (fs : gmap str str)
    (file_name content : str) :
  fs !! file_name = Some content ->
  exists rez,
    SendTextFile.split_text_file E fs file_name
    = (<[file_name := []]> fs, inl rez).
Proof.
  intros Hfile. unfold SendTextFile.split_text_file. rewrite Hfile.
  destruct (fold_left (SendTextFile.add_line E)
              (SendTextFile.readlines content) _) as [buffer_lines rez].
  eexists. reflexivity.
Qed.

(** X19: [send_text_file] empties a file that exists before it sends
    anything: whether the parts are then sent, skipped or refused by the
    platform, the file is left with the empty text, and the other files as
    they were. *)
Theorem X19_send_text_file_empties (E : Env) (P : Services)
    (file_name content : str) (chat_id : Z) (w : World) :
  files w !! file_name = Some content ->
  files (fst (SendLog.send_text_file E P file_name chat_id w))
  = <[file_name := []]> (files w).
Proof.
  destruct w as [fs cs]. cbn [files]. intros Hfile.
  pose proof (split_text_file_existing E fs file_name content Hfile)
    as [rez Hsplit].
  unfold SendLog.send_text_file. io. rewrite Hsplit. cbv beta iota.
  destruct ((length rez =? 1)%nat
            && (length (SendLog.splitlines (nth 0 rez [])) =? 1)%nat).
  - reflexivity.
  - now rewrite send_list_messages_files.
Qed.

Lemma X17_send_list_messages_accepted_witness :
  SendLog.send_list_messages Demo2.services [py "one"; py "two"] (-100)
    Demo2.world
  = (mkWorld (files Demo2.world)
       (calls Demo2.world ++ sent Demo2.services (-100) [py "one"; py "two"]),
     inl tt).
Proof.
  apply (X17_send_list_messages_accepted Demo2.services (-100)
           [py "one"; py "two"] Demo2.world).
  intros [|a [|b [|c pre]]] msg post Heq; try reflexivity.
  - injection Heq as _ _ Heq. destruct post; discriminate Heq.
  - injection Heq as _ _ Heq. discriminate Heq.
Defined.

Lemma X18_send_list_messages_refused_witness :
  SendLog.send_list_messages Demo2.services
    ([py "one"; py "two"] ++ py "three" :: [py "four"]) (-100) Demo2.world
  = (mkWorld (files Demo2.world)
       (calls Demo2.world ++ sent Demo2.services (-100) [py "one"; py "two"]
        ++ [CallSendMessage (-100) (hpre Demo2.services (py "three")) (Some true)
              (Some (py "HTML")) None]),
     inr (OtherError (py "RetryAfter"))).
Proof.
  apply (X18_send_list_messages_refused Demo2.services (-100)
           [py "one"; py "two"] [py "four"] (py "three")
           (OtherError (py "RetryAfter")) Demo2.world).
  - intros [|a [|b [|c pre]]] msg post Heq; try reflexivity.
    + injection Heq as _ _ Heq. destruct post; discriminate Heq.
    + injection Heq as _ _ Heq. discriminate Heq.
  - reflexivity.
Defined.

Lemma X19_send_text_file_empties_witness :
  files (fst (SendLog.send_text_file Demo.env Demo2.services (py "bot.log")
                7 Demo2.world))
  = <[py "bot.log" := []]> (files Demo2.world).
Proof.
  apply (X19_send_text_file_empties Demo.env Demo2.services (py "bot.log")
           (py "started") 7 Demo2.world).
  reflexivity.
Defined.

(** X20: [send_text_file] on a file that does not exist raises
    [FileNotFoundError]: nothing is sent and no file changes. *)
Theorem X20_send_text_file_missing (E : Env) (P : Services)
    (file_name : str) (chat_id : Z) (w : World) :
  files w !! file_name = None ->
  SendLog.send_text_file E P file_name chat_id w = (w, inr FileNotFoundError).
Proof.
  destruct w as [fs cs]. cbn [files]. intros Hfile.
  unfold SendLog.send_text_file, SendTextFile.split_text_file. io.
  unfold SendTextFile.split_text_file. now rewrite Hfile.
Qed.

Lemma X20_send_text_file_missing_witness :
  SendLog.send_text_file Demo.env Demo2.services (py "karma.log") 7
    Demo2.world
  = (Demo2.world, inr FileNotFoundError).
Proof.
  apply (X20_send_text_file_missing Demo.env Demo2.services (py "karma.log")
           7 Demo2.world).
  reflexivity.
Defined.

Lemma splitlines_from_one_line (line s : str) :
  one_line s = true ->
  SendLog.splitlines_from line (s ++ [10%N]) = [line ++ s].
Proof.
  revert line. induction s as [|c s IH]; intros line Hs.
  - cbn. now rewrite app_nil_r.
  - cbn [one_line forallb] in Hs. apply andb_prop in Hs as [Hc Hs].
    apply negb_true_iff in Hc. cbn [app SendLog.splitlines_from].
    destruct (N.eqb_spec c 13) as [->|_]; [discriminate Hc|].
    rewrite Hc, (IH _ Hs), <- app_assoc. reflexivity.
Qed.

(** X21: a log file that exists and is empty is not sent: when the heading
    [hbold(file_name)] holds no line boundary, [send_text_file] makes no
    call at all and ends without exception. *)
Theorem X21_empty_file_not_sent (E : Env) (P : Services)
    (file_name : str) (chat_id : Z) (w : World) :
  files w !! file_name = Some ([] : str) ->
  one_line (hbold E file_name) = true ->
  SendLog.send_text_file E P file_name chat_id w
  = (mkWorld (<[file_name := []]> (files w)) (calls w), inl tt).
Proof.
  destruct w as [fs cs]. cbn [files calls]. intros Hfile Hline.
  unfold SendLog.send_text_file. io.
  unfold SendTextFile.split_text_file. rewrite Hfile.
  cbn [SendTextFile.readlines SendTextFile.translate_newlines
         SendTextFile.lines_from fold_left].
  replace (SendTextFile.len (hbold E file_name ++ py ":" ++ [10%N]) >? 0)
    with true.
  - cbn [app length nth Nat.eqb andb]. unfold SendLog.splitlines.
    rewrite app_assoc, splitlines_from_one_line; [reflexivity|].
    unfold one_line in *. rewrite forallb_app, Hline. reflexivity.
  - symmetry. apply Z.gtb_lt. unfold SendTextFile.len.
    rewrite !length_app. cbn [length]. lia.
Qed.

Lemma X21_empty_file_not_sent_witness :
  SendLog.send_text_file Demo.env Demo2.services (py "bot.log") 7
    Demo2.empty_log
  = (mkWorld (<[py "bot.log" := []]> (files Demo2.empty_log))
       (calls Demo2.empty_log),
     inl tt).
Proof.
  apply (X21_empty_file_not_sent Demo.env Demo2.services (py "bot.log") 7
           Demo2.empty_log);
    reflexivity.
Defined.

(** ** The [!info] command *)

Ltac cases :=
  repeat
    (match goal with
     | |- context [match ?x with _ => _ end] =>
         lazymatch x with
         | context [match _ with _ => _ end] => fail
         | (_, _) => fail
         | _ => destruct x eqn:?
         end
     end;
     cbv beta iota).

(** X22: once the row of the target and the information on it are fetched,
    [get_info_about_user] ends every run by trying to delete the command
    message, and that is its only deletion: whether the karma is read, the
    private message accepted, the hint sent or not. *)
Theorem X22_info_deletes_command (E : Env) (P : Services)
    (message : Message.t) (chat : Chat.t) (target : TgUser.t)
    (target_user : User.t) (info : list str) (w : World) :
  get_db_user_by_tg_user E target = inl target_user ->
  get_user_info P (calls w ++ [CallOf (EvGetDbUserByTgUser target)])
    target_user chat
  = inl info ->
  exists cs,
    calls (fst (Info.get_info_about_user E P message chat target w))
    = calls w ++ cs
      ++ [CallDelete (Message.chat message) (Message.message_id message)]
    /\ existsb is_delete cs = false.
Proof.
  destruct w as [fs cs0]. cbn [calls]. intros Hdb Hinfo.
  unfold Info.get_info_about_user. io. rewrite Hdb. cbv beta iota.
  rewrite Hinfo. cbv beta iota. cbn [existsb]. cases.
  all: cbn [fst calls]; rewrite <- !app_assoc; cbn [app].
  all: match goal with
       | |- exists cs, _ ++ ?l = _ /\ _ => exists (removelast l)
       end.
  all: split; reflexivity.
Qed.

Lemma X22_info_deletes_command_witness :
  exists cs,
    calls (fst (Info.get_info_about_user Demo.env Demo2.services
                  (Demo.message 12 1001 "!info") Demo.chat Demo.tg_bob
                  Demo2.world))
    = calls Demo2.world ++ cs
      ++ [CallDelete (Message.chat (Demo.message 12 1001 "!info"))
            (Message.message_id (Demo.message 12 1001 "!info"))]
    /\ existsb is_delete cs = false.
Proof.
  apply (X22_info_deletes_command Demo.env Demo2.services
           (Demo.message 12 1001 "!info") Demo.chat Demo.tg_bob Demo.bob
           [py "warn: 1"; py "ro: 0"] Demo2.world);
    reflexivity.
Defined.

(** X23: [get_info_about_user] shows the group nothing of the target, on
    any run: every message it sends goes to the private chat of the user
    who asked, and the only text it ever posts as a reply in the group is
    the hint to start the bot. *)
Theorem X23_info_stays_private (E : Env) (P : Services)
    (message : Message.t) (chat : Chat.t) (target : TgUser.t) (w : World) :
  exists cs,
    calls (fst (Info.get_info_about_user E P message chat target w))
    = calls w ++ cs
    /\ forallb (discreet message) cs = true.
Proof.
  destruct w as [fs cs0]. cbn [calls].
  unfold Info.get_info_about_user. io. cbn [existsb]. cases.
  all: cbn [fst calls]; rewrite <- ?app_assoc; cbn [app].
  all: eexists; split; [reflexivity|].
  all: cbn [forallb discreet]; rewrite ?Z.eqb_refl, ?bool_decide_eq_true_2;
    reflexivity.
Qed.

(** X24: when the collaborators succeed, [get_info_about_user] looks the
    target up, fetches the information and the karma, sends the sender of
    the command one private message, without link preview, whose text is
    the heading with the mention and the karma followed by the information,
    one entry a line, and then deletes the command message. *)
Theorem X24_info_success (E : Env) (P : Services)
    (message : Message.t) (chat : Chat.t) (target : TgUser.t)
    (target_user : User.t) (info : list str) (karma : str) (w : World) :
  get_db_user_by_tg_user E target = inl target_user ->
  (forall cs, get_user_info P cs target_user chat = inl info) ->
  (forall cs, get_karma P cs target_user chat = inl karma) ->
  (forall cs,
      bot_send_message P cs (Message.from_user message)
        (info_text target_user karma info)
      = None) ->
  (forall cs, Message_delete P cs message = None) ->
  Info.get_info_about_user E P message chat target w
  = (mkWorld (files w)
       (calls w
        ++ [CallOf (EvGetDbUserByTgUser target);
            CallGetUserInfo target_user chat;
            CallGetKarma target_user chat;
            CallSendMessage (Message.from_user message)
              (info_text target_user karma info) None None (Some true);
            CallDelete (Message.chat message)
              (Message.message_id message)]),
     inl tt).
Proof.
  destruct w as [fs cs0]. cbn [files calls].
  intros Hdb Hinfo Hkarma Hsend Hdelete.
  unfold Info.get_info_about_user. io. rewrite Hdb. cbv beta iota.
  rewrite Hinfo. cbv beta iota. rewrite Hkarma. cbv beta iota.
  unfold info_text in Hsend. rewrite Hsend. cbv beta iota.
  rewrite Hdelete. cbv beta iota.
  rewrite <- !(@app_assoc call). reflexivity.
Qed.

Lemma X24_info_success_witness :
  Info.get_info_about_user Demo.env Demo2.services
    (Demo.message 12 1001 "!info") Demo.chat Demo.tg_bob Demo2.world
  = (mkWorld (files Demo2.world)
       (calls Demo2.world
        ++ [CallOf (EvGetDbUserByTgUser Demo.tg_bob);
            CallGetUserInfo Demo.bob Demo.chat;
            CallGetKarma Demo.bob Demo.chat;
            CallSendMessage
              (Message.from_user (Demo.message 12 1001 "!info"))
              (info_text Demo.bob (py "5") [py "warn: 1"; py "ro: 0"])
              None None (Some true);
            CallDelete (Message.chat (Demo.message 12 1001 "!info"))
              (Message.message_id (Demo.message 12 1001 "!info"))]),
     inl tt).
Proof.
  apply (X24_info_success Demo.env Demo2.services
           (Demo.message 12 1001 "!info") Demo.chat Demo.tg_bob Demo.bob
           [py "warn: 1"; py "ro: 0"] (py "5") Demo2.world);
    solve [reflexivity | intros cs; reflexivity].
Defined.

(** X25: when the platform refuses the private message with an exception
    of the class [Unauthorized], [get_info_about_user] replies in the group
    with the hint to start the bot, deletes the command message and ends
    without exception. *)
Theorem X25_info_unauthorized (E : Env) (P : Services)
    (message : Message.t) (chat : Chat.t) (target : TgUser.t)
    (target_user : User.t) (info : list str) (karma : str) (e : exn)
    (w : World) :
  get_db_user_by_tg_user E target = inl target_user ->
  (forall cs, get_user_info P cs target_user chat = inl info) ->
  (forall cs, get_karma P cs target_user chat = inl karma) ->
  (forall cs,
      bot_send_message P cs (Message.from_user message)
        (info_text target_user karma info)
      = Some e) ->
  Unauthorized P e = true ->
  (forall cs, Message_reply P cs message Info.start_hint = None) ->
  (forall cs, Message_delete P cs message = None) ->
  Info.get_info_about_user E P message chat target w
  = (mkWorld (files w)
       (calls w
        ++ [CallOf (EvGetDbUserByTgUser target);
            CallGetUserInfo target_user chat;
            CallGetKarma target_user chat;
            CallSendMessage (Message.from_user message)
              (info_text target_user karma info) None None (Some true);
            CallOf (EvReply (Message.message_id message)
                      (py "Напишите мне в личку /start и повторите команду."));
            CallDelete (Message.chat message)
              (Message.message_id message)]),
     inl tt).
Proof.
  destruct w as [fs cs0]. cbn [files calls].
  intros Hdb Hinfo Hkarma Hsend Hclass Hreply Hdelete.
  unfold Info.get_info_about_user. io. rewrite Hdb. cbv beta iota.
  rewrite Hinfo. cbv beta iota. rewrite Hkarma. cbv beta iota.
  unfold info_text in Hsend. rewrite Hsend. cbv beta iota.
  rewrite Hclass. cbv beta iota. rewrite Hreply. cbv beta iota.
  rewrite Hdelete. cbv beta iota.
  rewrite <- !(@app_assoc call). reflexivity.
Qed.

Lemma X25_info_unauthorized_witness :
  Info.get_info_about_user Demo.env Demo2.services
    (Demo.message 12 1002 "!info") Demo.chat Demo.tg_alice Demo2.world
  = (mkWorld (files Demo2.world)
       (calls Demo2.world
        ++ [CallOf (EvGetDbUserByTgUser Demo.tg_alice);
            CallGetUserInfo Demo.alice Demo.chat;
            CallGetKarma Demo.alice Demo.chat;
            CallSendMessage
              (Message.from_user (Demo.message 12 1002 "!info"))
              (info_text Demo.alice (py "5") [py "warn: 1"; py "ro: 0"])
              None None (Some true);
            CallOf (EvReply
                      (Message.message_id (Demo.message 12 1002 "!info"))
                      (py "Напишите мне в личку /start и повторите команду."));
            CallDelete (Message.chat (Demo.message 12 1002 "!info"))
              (Message.message_id (Demo.message 12 1002 "!info"))]),
     inl tt).
Proof.
  apply (X25_info_unauthorized Demo.env Demo2.services
           (Demo.message 12 1002 "!info") Demo.chat Demo.tg_alice Demo.alice
           [py "warn: 1"; py "ro: 0"] (py "5")
           (OtherError (py "BotBlocked")) Demo2.world);
    solve [reflexivity | intros cs; reflexivity].
Defined.

(** X26: when the row of the target cannot be found, or the information on
    it cannot be fetched, [get_info_about_user] raises that exception and
    leaves the command message in the chat: it deletes nothing. *)
Theorem X26_info_early_failure (E : Env) (P : Services)
    (message : Message.t) (chat : Chat.t) (target : TgUser.t) (e : exn)
    (w : World) :
  get_db_user_by_tg_user E target = inr e
  \/ (exists target_user,
        get_db_user_by_tg_user E target = inl target_user
        /\ get_user_info P (calls w ++ [CallOf (EvGetDbUserByTgUser target)])
             target_user chat
           = inr e) ->
  snd (Info.get_info_about_user E P message chat target w) = inr e
  /\ exists cs,
       calls (fst (Info.get_info_about_user E P message chat target w))
       = calls w ++ cs
       /\ existsb is_delete cs = false.
Proof.
  destruct w as [fs cs0]. cbn [calls].
  intros [Hdb|(target_user & Hdb & Hinfo)];
    unfold Info.get_info_about_user; io; rewrite Hdb; cbv beta iota.
  - split; [reflexivity|]. eexists. split; reflexivity.
  - rewrite Hinfo. cbv beta iota. split; [reflexivity|].
    cbn [fst calls]. rewrite <- !(@app_assoc call).
    eexists. split; reflexivity.
Qed.

Lemma X26_info_early_failure_witness :
  snd (Info.get_info_about_user Demo.env Demo2.services
         (Demo.message 12 1001 "!info") Demo.chat Demo.tg_alice_by_name
         Demo2.world)
  = inr (UserWithoutUserIdError None None)
  /\ exists cs,
       calls (fst (Info.get_info_about_user Demo.env Demo2.services
                     (Demo.message 12 1001 "!info") Demo.chat
                     Demo.tg_alice_by_name Demo2.world))
       = calls Demo2.world ++ cs
       /\ existsb is_delete cs = false.
Proof.
  apply (X26_info_early_failure Demo.env Demo2.services
           (Demo.message 12 1001 "!info") Demo.chat Demo.tg_alice_by_name
           (UserWithoutUserIdError None None) Demo2.world).
  left. reflexivity.
Defined.

(** X27: the deletion sits in a [finally] block, so its failure wins: when
    the deletion raises an exception of neither suppressed class, that
    exception is what [get_info_about_user] raises, whether the private
    message was sent, refused, or answered with the hint. *)
Theorem X27_info_deletion_failure (E : Env) (P : Services)
    (message : Message.t) (chat : Chat.t) (target : TgUser.t)
    (target_user : User.t) (info : list str) (e : exn) (w : World) :
  get_db_user_by_tg_user E target = inl target_user ->
  get_user_info P (calls w ++ [CallOf (EvGetDbUserByTgUser target)])
    target_user chat
  = inl info ->
  (forall cs, Message_delete P cs message = Some e) ->
  MessageCantBeDeleted P e = false ->
  MessageToDeleteNotFound P e = false ->
  snd (Info.get_info_about_user E P message chat target w) = inr e.
Proof.
  destruct w as [fs cs0]. cbn [calls].
  intros Hdb Hinfo Hdelete Hclass1 Hclass2.
  unfold Info.get_info_about_user. io. rewrite Hdb. cbv beta iota.
  rewrite Hinfo. cbv beta iota. cbn [existsb].
  repeat
    (first
       [ match goal with
         | |- context [Message_delete P ?cs message] => rewrite (Hdelete cs)
         end
       | rewrite Hclass1
       | rewrite Hclass2
       | match goal with
         | |- context [match ?x with _ => _ end] =>
             lazymatch x with
             | context [match _ with _ => _ end] => fail
             | (_, _) => fail
             | _ => destruct x eqn:?
             end
         end ];
     cbv beta iota; cbn [orb]).
  all: reflexivity.
Qed.

Lemma X27_info_deletion_failure_witness :
  snd (Info.get_info_about_user Demo.env Demo2.no_rights
         (Demo.message 12 1001 "!info") Demo.chat Demo.tg_bob Demo2.world)
  = inr (OtherError (py "NotEnoughRightsError")).
Proof.
  apply (X27_info_deletion_failure Demo.env Demo2.no_rights
           (Demo.message 12 1001 "!info") Demo.chat Demo.tg_bob Demo.bob
           [py "warn: 1"; py "ro: 0"]
           (OtherError (py "NotEnoughRightsError")) Demo2.world);
    solve [reflexivity | intros cs; reflexivity].
Defined.

(** X28: the second [cmd_ro_bot_not_admin], for a user without the
    moderator's rights, only tries to delete the command message, and never
    replies.  It raises exactly when the deletion raises an exception of
    neither [MessageCantBeDeleted] nor [MessageToDeleteNotFound], and then
    that exception. *)
Theorem X28_cmd_ro_bot_not_admin (P : Services) (message : Message.t)
    (e : exn) (w : World) :
  fst (Info.cmd_ro_bot_not_admin P message w)
  = mkWorld (files w)
      (calls w
       ++ [CallDelete (Message.chat message) (Message.message_id message)])
  /\ (snd (Info.cmd_ro_bot_not_admin P message w) = inr e
      <-> Message_delete P (calls w) message = Some e
          /\ MessageCantBeDeleted P e = false
          /\ MessageToDeleteNotFound P e = false).
Proof.
  destruct w as [fs cs0]. cbn [files calls].
  unfold Info.cmd_ro_bot_not_admin. io. cbn [existsb].
  destruct (Message_delete P cs0 message) as [e0|]; cbv beta iota.
  - destruct (MessageCantBeDeleted P e0) eqn:H1;
      [|destruct (MessageToDeleteNotFound P e0) eqn:H2]; cbn [orb fst snd].
    + split; [reflexivity|]. split; [discriminate|].
      intros (He & H1' & _). injection He as <-. congruence.
    + split; [reflexivity|]. split; [discriminate|].
      intros (He & _ & H2'). injection He as <-. congruence.
    + split; [reflexivity|]. split.
      * intros He. injection He as <-. auto.
      * intros (He & _). now injection He as <-.
  - split; [reflexivity|]. cbn [snd]. split; [discriminate|].
    intros (He & _). discriminate He.
Qed.
